(** * FloatChat ARGO backend: ingestion and query core

    A shallow embedding of the two ingestion variants of the repository
    and of the in-memory query handlers:

    - [Backend]   : [backend/src/index.js], the in-memory loader
                    ([loadCSVData]) and the Express handlers;
    - [Processor] : the [ArgoCsvProcessor] class, the database-ingestion
                    variant ([processAllFiles] and its helpers).

    JavaScript numbers are modelled as exact rationals extended with
    [NaN] and the two infinities (rounding of binary64 and the sign of
    zero are not represented).  A parsed CSV cell is [undefined],
    [null], a boolean, a number or a string.  Built-in conversions
    whose result is fixed by the host ([Number] on a string, [String]
    on a number that is not a plain integer, [Date.parse] outside the
    date-only ISO form, [parseInt]) are the fields of the class
    [Builtins].

    A plain object used as a dictionary is the list of its own
    properties in insertion order; reading a key that is not an own
    property finds the names inherited from [Object.prototype].  A
    computation that may throw returns an [outcome], so that a
    [try]/[catch] sees the mutations made before the throw. *)

From Stdlib Require Import ZArith QArith Qminmax List Bool Ascii String.
From Stdlib Require Import DecimalString Lia Lqa Permutation.
Import ListNotations.

Local Open Scope string_scope.
Local Open Scope Z_scope.

(** ** JavaScript values *)

Module JS.

(** A JavaScript number. *)
Inductive num : Type :=
| NaN
| NegInf
| PosInf
| Fin (q : Q).

(** The scalars a parsed CSV cell or a request parameter can hold. *)
Inductive value : Type :=
| VUndefined
| VNull
| VBool (b : bool)
| VNum (n : num)
| VStr (s : string).

Definition isNaN (n : num) : bool :=
  match n with NaN => true | _ => false end.

(** [a < b] on numbers; every comparison with [NaN] is false. *)
Definition num_ltb (a b : num) : bool :=
  match a, b with
  | NaN, _ | _, NaN => false
  | NegInf, NegInf => false
  | NegInf, _ => true
  | _, NegInf => false
  | PosInf, _ => false
  | Fin _, PosInf => true
  | Fin x, Fin y => negb (Qle_bool y x)
  end.

(** [a <= b] on numbers. *)
Definition num_leb (a b : num) : bool :=
  match a, b with
  | NaN, _ | _, NaN => false
  | NegInf, _ => true
  | _, PosInf => true
  | PosInf, _ => false
  | Fin _, NegInf => false
  | Fin x, Fin y => Qle_bool x y
  end.

Definition num_gtb (a b : num) : bool := num_ltb b a.
Definition num_geb (a b : num) : bool := num_leb b a.

(** [a === b] on numbers. *)
Definition num_eqb (a b : num) : bool :=
  match a, b with
  | NegInf, NegInf => true
  | PosInf, PosInf => true
  | Fin x, Fin y => Qeq_bool x y
  | _, _ => false
  end.

(** [Math.min] and [Math.max] of two numbers. *)
Definition Math_min (a b : num) : num :=
  match a, b with
  | NaN, _ | _, NaN => NaN
  | NegInf, _ | _, NegInf => NegInf
  | PosInf, x | x, PosInf => x
  | Fin x, Fin y => Fin (Qmin x y)
  end.

Definition Math_max (a b : num) : num :=
  match a, b with
  | NaN, _ | _, NaN => NaN
  | PosInf, _ | _, PosInf => PosInf
  | NegInf, x | x, NegInf => x
  | Fin x, Fin y => Fin (Qmax x y)
  end.

Definition Qsign_pos (q : Q) : bool := negb (Qle_bool q 0).
Definition Qis_zero (q : Q) : bool := Qeq_bool q 0.

(** [a * b]. *)
Definition num_mul (a b : num) : num :=
  let inf (neg : bool) := if neg then NegInf else PosInf in
  match a, b with
  | NaN, _ | _, NaN => NaN
  | Fin x, Fin y => Fin (x * y)
  | Fin x, PosInf | PosInf, Fin x =>
      if Qis_zero x then NaN else inf (negb (Qsign_pos x))
  | Fin x, NegInf | NegInf, Fin x =>
      if Qis_zero x then NaN else inf (Qsign_pos x)
  | PosInf, PosInf | NegInf, NegInf => PosInf
  | PosInf, NegInf | NegInf, PosInf => NegInf
  end.

(** [a + b]. *)
Definition num_add (a b : num) : num :=
  match a, b with
  | NaN, _ | _, NaN => NaN
  | Fin x, Fin y => Fin (x + y)
  | PosInf, NegInf | NegInf, PosInf => NaN
  | PosInf, _ | _, PosInf => PosInf
  | NegInf, _ | _, NegInf => NegInf
  end.

(** Conversions fixed by the JavaScript host. *)
Class Builtins : Type := {
  (** [Number(s)] for a string [s]. *)
  StringToNumber : string -> num;
  (** [String(q)] for a finite number that is not an integer below
      [10^21] in absolute value. *)
  NumberToString : Q -> string;
  (** [Date.parse(s)] for a string that is not of the date-only form
      [YYYY-MM-DD]: the time value, or [None] for [NaN]. *)
  legacyDateParse : string -> option Z;
  (** [parseInt(s)]. *)
  parseInt : string -> num
}.

Section Conversions.
Context {B : Builtins}.

(** [Number(v)]. *)
Definition Number (v : value) : num :=
  match v with
  | VUndefined => NaN
  | VNull => Fin 0
  | VBool true => Fin 1
  | VBool false => Fin 0
  | VNum n => n
  | VStr s => StringToNumber s
  end.

(** The decimal digits of an integer, with a leading [-] when negative. *)
Definition decimal_of_Z (z : Z) : string :=
  NilEmpty.string_of_int (Z.to_int z).

(** [String(v)], also the conversion of a value to a property key. *)
Definition ToString (v : value) : string :=
  match v with
  | VUndefined => "undefined"
  | VNull => "null"
  | VBool true => "true"
  | VBool false => "false"
  | VNum NaN => "NaN"
  | VNum PosInf => "Infinity"
  | VNum NegInf => "-Infinity"
  | VNum (Fin q) =>
      let r := Qred q in
      if (Qden r =? 1)%positive && (Z.abs (Qnum r) <? 10 ^ 21)
      then decimal_of_Z (Qnum r)
      else NumberToString q
  | VStr s => s
  end.

End Conversions.

(** Truthiness: what [!v], [v || w] and [if (v)] test. *)
Definition truthy (v : value) : bool :=
  match v with
  | VUndefined | VNull => false
  | VBool b => b
  | VNum NaN => false
  | VNum (Fin q) => negb (Qis_zero q)
  | VNum _ => true
  | VStr s => negb (String.eqb s "")
  end.

(** [a || b]. *)
Definition or_else (a b : value) : value := if truthy a then a else b.

(** [a === b]. *)
Definition strict_eq (a b : value) : bool :=
  match a, b with
  | VUndefined, VUndefined => true
  | VNull, VNull => true
  | VBool x, VBool y => Bool.eqb x y
  | VNum x, VNum y => num_eqb x y
  | VStr x, VStr y => String.eqb x y
  | _, _ => false
  end.

(** A parsed CSV row: the own properties of a plain object. *)
Definition row : Type := list (string * value).

(** [r.k] for a fixed column name [k]. *)
Fixpoint prop (r : row) (k : string) : value :=
  match r with
  | [] => VUndefined
  | (k', v) :: r' => if String.eqb k' k then v else prop r' k
  end.

End JS.

Export JS.
Infix "||'" := or_else (at level 50, left associativity).

(** ** Validity predicates shared by both variants *)

Section Validity.
Context {B : Builtins}.

(** [isValidValue], identical in [index.js] and in [ArgoCsvProcessor]. *)
Definition isValidValue (v : value) : bool :=
  negb (strict_eq v VNull) && negb (strict_eq v VUndefined) &&
  negb (isNaN (Number v)) && negb (num_eqb (Number v) (Fin 99999)) &&
  num_gtb (Number v) (Fin (-999)) && negb (strict_eq v (VStr "")).

End Validity.

(** ** Strings, exceptions and plain objects used as dictionaries *)

Module Str.

Definition is_digit (c : ascii) : bool :=
  let n := N_of_ascii c in (48 <=? n)%N && (n <=? 57)%N.

Definition digit_val (c : ascii) : N := (N_of_ascii c - 48)%N.

Fixpoint all_digits (s : string) : bool :=
  match s with
  | "" => true
  | String c s' => is_digit c && all_digits s'
  end.

(** The value of a string of decimal digits. *)
Fixpoint digits_val_from (acc : N) (s : string) : N :=
  match s with
  | "" => acc
  | String c s' => digits_val_from (10 * acc + digit_val c)%N s'
  end.

Definition digits_val (s : string) : N := digits_val_from 0%N s.

(** [s.endsWith(suf)]. *)
Definition endsWith (s suf : string) : bool :=
  let n := String.length s in
  let m := String.length suf in
  (m <=? n)%nat && String.eqb (substring (n - m) m s) suf.

(** [s.split(c)] for a one-character separator. *)
Fixpoint split (c : ascii) (s : string) : list string :=
  match s with
  | "" => [""]
  | String a s' =>
      if Ascii.eqb a c then "" :: split c s'
      else match split c s' with
           | h :: t => String a h :: t
           | [] => [String a ""]
           end
  end.

Fixpoint repeat_char (c : ascii) (n : nat) : string :=
  match n with
  | O => ""
  | S n' => String c (repeat_char c n')
  end.

(** [s.padStart(n, c)] for a one-character filler. *)
Definition padStart (n : nat) (c : ascii) (s : string) : string :=
  repeat_char c (n - String.length s) ++ s.

(** Insertion of a string into a list sorted by code units. *)
Fixpoint insert_sorted {A : Type} (key : A -> string) (x : A) (l : list A)
  : list A :=
  match l with
  | [] => [x]
  | y :: l' =>
      if String.leb (key y) (key x) then y :: insert_sorted key x l'
      else x :: l
  end.

(** [l.sort()] with the default comparison, on the names [key x]. *)
Definition sort_by {A : Type} (key : A -> string) (l : list A) : list A :=
  fold_left (fun acc x => insert_sorted key x acc) l [].

End Str.

(** The completion of a computation that may throw.  Mutations of
    the shared state made before the throw stay visible, so both
    completions carry the state. *)
Inductive outcome (S : Type) : Type :=
| Done (s : S)
| Threw (s : S).
Arguments Done {S} s.
Arguments Threw {S} s.

Definition state_of {S : Type} (o : outcome S) : S :=
  match o with Done s | Threw s => s end.

(** Runs [step] over [l] from left to right until one call throws. *)
Fixpoint for_each {A S : Type} (step : S -> A -> outcome S) (l : list A)
  (s : S) : outcome S :=
  match l with
  | [] => Done s
  | x :: l' =>
      match step s x with
      | Done s' => for_each step l' s'
      | Threw s' => Threw s'
      end
  end.

Module Obj.

(** The property names every plain object inherits from
    [Object.prototype]; each of them reads as a truthy value that is
    not an array. *)
Definition prototype_keys : list string :=
  [ "constructor"; "__defineGetter__"; "__defineSetter__";
    "hasOwnProperty"; "__lookupGetter__"; "__lookupSetter__";
    "isPrototypeOf"; "propertyIsEnumerable"; "toString"; "valueOf";
    "__proto__"; "toLocaleString" ].

Definition inherited (k : string) : bool :=
  existsb (String.eqb k) prototype_keys.

(** Own properties in insertion order. *)
Definition dict (A : Type) : Type := list (string * A).

Inductive slot (A : Type) : Type :=
| Own (a : A)
| Inherited
| Missing.
Arguments Own {A} a.
Arguments Inherited {A}.
Arguments Missing {A}.

Fixpoint own {A : Type} (o : dict A) (k : string) : option A :=
  match o with
  | [] => None
  | (k', a) :: o' => if String.eqb k' k then Some a else own o' k
  end.

(** [o[k]]. *)
Definition get {A : Type} (o : dict A) (k : string) : slot A :=
  match own o k with
  | Some a => Own a
  | None => if inherited k then Inherited else Missing
  end.

(** [o[k] = a] for a key that is not [__proto__]. *)
Fixpoint set {A : Type} (o : dict A) (k : string) (a : A) : dict A :=
  match o with
  | [] => [(k, a)]
  | (k', a') :: o' =>
      if String.eqb k' k then (k', a) :: o' else (k', a') :: set o' k a
  end.

(** A canonical array index: these keys are enumerated first, in
    ascending numeric order. *)
Definition is_index (k : string) : bool :=
  match k with
  | "" => false
  | String c rest =>
      Str.all_digits k &&
      (negb (Ascii.eqb c "0") || String.eqb rest "") &&
      (String.length k <=? 10)%nat &&
      (Str.digits_val k <? 4294967295)%N
  end.

Fixpoint insert_index {A : Type} (x : string * A) (l : dict A) : dict A :=
  match l with
  | [] => [x]
  | y :: l' =>
      if (Str.digits_val (fst y) <=? Str.digits_val (fst x))%N
      then y :: insert_index x l'
      else x :: l
  end.

(** [Object.entries(o)], also the order of [for (k in o)]. *)
Definition entries {A : Type} (o : dict A) : list (string * A) :=
  (fold_left (fun acc x => insert_index x acc)
             (filter (fun x => is_index (fst x)) o) []
   ++ filter (fun x => negb (is_index (fst x))) o)%list.

End Obj.

(** ** Dates *)

Module Dates.

(** A [Date] object: its time value in milliseconds since the Unix
    epoch, or [None] for an invalid date. *)
Definition Date : Type := option Z.

Definition msPerDay : Z := 86400000.

(** Days from 1970-01-01 to the civil date [y]-[m]-[d]. *)
Definition days_from_civil (y m d : Z) : Z :=
  let y' := if m <=? 2 then y - 1 else y in
  let era := y' / 400 in
  let yoe := y' - era * 400 in
  let mp := (m + 9) mod 12 in
  let doy := (153 * mp + 2) / 5 + d - 1 in
  let doe := yoe * 365 + yoe / 4 - yoe / 100 + doy in
  era * 146097 + doe - 719468.

(** [Date.parse] on the date-only form [YYYY-MM-DD] (UTC midnight; a
    day up to 31 is accepted in every month and carried over). *)
Definition parse_date_only (s : string) : option Z :=
  let y := substring 0 4 s in
  let m := substring 5 2 s in
  let d := substring 8 2 s in
  if (String.length s =? 10)%nat &&
     String.eqb (substring 4 1 s) "-" && String.eqb (substring 7 1 s) "-" &&
     Str.all_digits y && Str.all_digits m && Str.all_digits d
  then
    let yv := Z.of_N (Str.digits_val y) in
    let mv := Z.of_N (Str.digits_val m) in
    let dv := Z.of_N (Str.digits_val d) in
    if (1 <=? mv) && (mv <=? 12) && (1 <=? dv) && (dv <=? 31)
    then Some (days_from_civil yv mv dv * msPerDay)
    else None
  else None.

(** Truncation toward zero. *)
Definition Qtrunc (q : Q) : Z := Z.quot (Qnum q) (Zpos (Qden q)).

(** [TimeClip]: the time value of [new Date(n)] for a number [n]. *)
Definition TimeClip (n : num) : Date :=
  match n with
  | Fin q =>
      if Qle_bool (-8640000000000000) q && Qle_bool q 8640000000000000
      then Some (Qtrunc q) else None
  | _ => None
  end.

(** [d.getTime()]. *)
Definition getTime (d : Date) : num :=
  match d with
  | Some t => Fin (inject_Z t)
  | None => NaN
  end.

Section Parse.
Context {B : Builtins}.

(** [new Date(s)] for a string. *)
Definition Date_parse (s : string) : Date :=
  match parse_date_only s with
  | Some t => Some t
  | None => legacyDateParse s
  end.

(** [new Date(v)] for a scalar. *)
Definition new_Date (v : value) : Date :=
  match v with
  | VStr s => Date_parse s
  | _ => TimeClip (Number v)
  end.

End Parse.

(** [new Date('2020-11-01')], the default date of both variants. *)
Definition default_date : Date := parse_date_only "2020-11-01".

(** The match of [/(\d{8})_prof\.csv/]: the first capture group. *)
Fixpoint match_prof_csv (s : string) : option string :=
  match s with
  | "" => None
  | String _ s' =>
      let d := substring 0 8 s in
      if (String.length d =? 8)%nat && Str.all_digits d &&
         String.prefix "_prof.csv" (substring 8 (String.length s - 8) s)
      then Some d
      else match_prof_csv s'
  end.

(** [extractDateFromFilename], identical in both variants. *)
Definition extractDateFromFilename {B : Builtins} (filename : string) : Date :=
  match match_prof_csv filename with
  | Some dateStr =>
      Date_parse (substring 0 4 dateStr ++ "-" ++ substring 4 2 dateStr
                  ++ "-" ++ substring 6 2 dateStr)
  | None => default_date
  end.

End Dates.

Export Dates.

(** ** Profile grouping, identical in both variants *)

Section Grouping.
Context {B : Builtins}.

(** One iteration of the loop of [groupByProfile]; [None] when
    [groups[profileId].push] is not a function. *)
Definition group_row (groups : Obj.dict (list row)) (r : row)
  : option (Obj.dict (list row)) :=
  let profileId :=
    ToString (prop r "PROFILE" ||' prop r "profile" ||' VNum (Fin 0)) in
  match Obj.get groups profileId with
  | Obj.Missing => Some (Obj.set groups profileId [r])
  | Obj.Own rows => Some (Obj.set groups profileId (rows ++ [r])%list)
  | Obj.Inherited => None
  end.

Fixpoint group_rows (groups : Obj.dict (list row)) (data : list row)
  : option (Obj.dict (list row)) :=
  match data with
  | [] => Some groups
  | r :: data' =>
      match group_row groups r with
      | Some groups' => group_rows groups' data'
      | None => None
      end
  end.

(** [groupByProfile(data)]; [None] when it throws. *)
Definition groupByProfile (data : list row) : option (Obj.dict (list row)) :=
  group_rows [] data.

End Grouping.

(** ** The in-memory variant: [backend/src/index.js] *)

Module Backend.

Record FloatRec : Type := {
  float_id : value;
  wmo_number : value;
  last_position_lat : num;
  last_position_lon : num;
  status : string;
  platform_type : string;
  last_profile_date : Date
}.

Record Measurement : Type := {
  pressure : num;
  temperature : num;
  salinity : option num;
  depth : num;
  quality_flag : string
}.

Record ProfileEntry : Type := {
  profile_id : string;
  date : Date;
  measurements : list Measurement
}.

(** The two module-level variables. *)
Record Store : Type := {
  FLOAT_DATA : list FloatRec;
  MEASUREMENTS_DATA : Obj.dict (list ProfileEntry)
}.

Definition empty_store : Store :=
  {| FLOAT_DATA := []; MEASUREMENTS_DATA := [] |}.

(** A parsed file of the data directory: its name and its rows. *)
Definition file : Type := (string * list row)%type.

Section Loader.
Context {B : Builtins}.

Definition isValidCoordinate (coord : value) : bool :=
  let num := Number coord in
  negb (isNaN num) && num_geb num (Fin (-180)) && num_leb num (Fin 180).

(** The [filter]/[map] chain that builds the measurements of a group. *)
Definition build_measurements (profileData : list row) : list Measurement :=
  map (fun r =>
         {| pressure := Number (prop r "PRES");
            temperature := Number (prop r "TEMP");
            salinity := if isValidValue (prop r "PSAL")
                        then Some (Number (prop r "PSAL")) else None;
            depth := num_mul (Number (prop r "PRES")) (Fin 1.019716);
            quality_flag := "1" |})
      (filter (fun r => isValidValue (prop r "PRES") &&
                        isValidValue (prop r "TEMP")) profileData).

(** The callback run on each entry of [Object.entries(profiles)]. *)
Definition loadProfile (date : Date) (st : Store)
  (entry : string * list row) : outcome Store :=
  let '(profileId, profileData) := entry in
  match profileData with
  | [] => Threw st
  | sample :: _ =>
      let floatId :=
        prop sample "PLATFORM_NUMBER" ||' prop sample "platform_number" ||'
        prop sample "FLOAT_ID" ||' prop sample "float_id" ||'
        VStr ("2901" ++ Str.padStart 3 "0" profileId) in
      let lat :=
        if isValidValue (prop sample "LATITUDE")
        then Some (Number (prop sample "LATITUDE"))
        else if isValidValue (prop sample "latitude")
             then Some (Number (prop sample "latitude")) else None in
      let lon :=
        if isValidValue (prop sample "LONGITUDE")
        then Some (Number (prop sample "LONGITUDE"))
        else if isValidValue (prop sample "longitude")
             then Some (Number (prop sample "longitude")) else None in
      match lat, lon with
      | Some lat, Some lon =>
          if negb (isValidCoordinate (VNum lat)) ||
             negb (isValidCoordinate (VNum lon))
          then Done st
          else
            let floats :=
              match find (fun f => strict_eq (float_id f) floatId)
                         (FLOAT_DATA st) with
              | Some _ => FLOAT_DATA st
              | None =>
                  (FLOAT_DATA st ++
                   [ {| float_id := floatId;
                        wmo_number := floatId;
                        last_position_lat := lat;
                        last_position_lon := lon;
                        status := "active";
                        platform_type := "ARGO_FLOAT";
                        last_profile_date := date |} ])%list
              end in
            let key := ToString floatId in
            let item :=
              {| profile_id := key ++ "_" ++ profileId;
                 date := date;
                 measurements := build_measurements profileData |} in
            match Obj.get (MEASUREMENTS_DATA st) key with
            | Obj.Missing =>
                Done {| FLOAT_DATA := floats;
                        MEASUREMENTS_DATA :=
                          Obj.set (MEASUREMENTS_DATA st) key [item] |}
            | Obj.Own items =>
                Done {| FLOAT_DATA := floats;
                        MEASUREMENTS_DATA :=
                          Obj.set (MEASUREMENTS_DATA st) key
                                  (items ++ [item])%list |}
            | Obj.Inherited =>
                Threw {| FLOAT_DATA := floats;
                         MEASUREMENTS_DATA := MEASUREMENTS_DATA st |}
            end
      | _, _ => Done st
      end
  end.

(** The body of [files.forEach]: an exception raised while the file
    is processed is caught and the next file is taken. *)
Definition loadFile (st : Store) (f : file) : Store :=
  let date := extractDateFromFilename (fst f) in
  match groupByProfile (snd f) with
  | Some profiles =>
      state_of (for_each (loadProfile date) (Obj.entries profiles) st)
  | None => st
  end.

(** The files [loadCSVData] takes from a directory listing. *)
Definition discover (dir : list file) : list file :=
  Str.sort_by fst (filter (fun f => Str.endsWith (fst f) "_prof.csv") dir).

(** [loadCSVData()], from the initial empty variables. *)
Definition loadCSVData (dir : list file) : Store :=
  fold_left loadFile (discover dir) empty_store.

End Loader.

(** *** The Express handlers *)

(** What a handler does with a request: it sends a JSON body, or it
    throws and Express answers with an error. *)
Inductive reply (A : Type) : Type :=
| Json (body : A)
| ServerError.
Arguments Json {A} body.
Arguments ServerError {A}.

(** The query string of [GET /api/floats]. *)
Record FloatsQuery : Type := {
  q_bbox : option string;
  q_date_range : option string;
  q_status : option string
}.

Record ProfileOut : Type := {
  po_id : string;
  po_date : Date;
  po_latitude : num;
  po_longitude : num;
  po_cycle_number : num
}.

Record PointOut : Type := {
  pt_timestamp : Date;
  pt_latitude : num;
  pt_longitude : num
}.

Section Handlers.
Context {B : Builtins}.

(** A query parameter is used when it is present and not empty. *)
Definition given (p : option string) : option string :=
  match p with
  | Some s => if truthy (VStr s) then Some s else None
  | None => None
  end.

Definition inBbox (item : FloatRec) (bbox : option (list value)) : bool :=
  match bbox with
  | None => true
  | Some bbox =>
      let nums := map Number bbox in
      let lat1 := nth 0 nums NaN in
      let lon1 := nth 1 nums NaN in
      let lat2 := nth 2 nums NaN in
      let lon2 := nth 3 nums NaN in
      let minLat := Math_min lat1 lat2 in
      let maxLat := Math_max lat1 lat2 in
      let minLon := Math_min lon1 lon2 in
      let maxLon := Math_max lon1 lon2 in
      num_geb (last_position_lat item) minLat &&
      num_leb (last_position_lat item) maxLat &&
      num_geb (last_position_lon item) minLon &&
      num_leb (last_position_lon item) maxLon
  end.

(** The date-range test of the two float listings. *)
Definition in_range (startDate endDate : Date) (f : FloatRec) : bool :=
  let floatDate := last_profile_date f in
  num_geb (getTime floatDate) (getTime startDate) &&
  num_leb (getTime floatDate) (getTime endDate).

(** [GET /api/floats]. *)
Definition api_floats (st : Store) (q : FloatsQuery) : list FloatRec :=
  let bboxArr :=
    option_map (fun s => map (fun x => VNum (StringToNumber x))
                             (Str.split "," s)) (given (q_bbox q)) in
  let rangeArr := option_map (Str.split ",") (given (q_date_range q)) in
  let results := FLOAT_DATA st in
  let results :=
    match given (q_status q) with
    | Some s => filter (fun f => String.eqb (status f) s) results
    | None => results
    end in
  let results :=
    match bboxArr with
    | Some arr =>
        if (List.length arr =? 4)%nat
        then filter (fun f => inBbox f (Some arr)) results
        else results
    | None => results
    end in
  match rangeArr with
  | Some [s; e] => filter (in_range (Date_parse s) (Date_parse e)) results
  | _ => results
  end.

(** The coordinate the two per-float listings show:
    [FLOAT_DATA.find(...)?.last_position_lat || 0]. *)
Definition shown (proj : FloatRec -> num) (st : Store) (floatId : string)
  : num :=
  match find (fun f => strict_eq (float_id f) (VStr floatId))
             (FLOAT_DATA st) with
  | Some f => if truthy (VNum (proj f)) then proj f else Fin 0
  | None => Fin 0
  end.

(** [GET /api/floats/:floatId/profiles]. *)
Definition api_profiles (st : Store) (floatId : string)
  : reply (list ProfileOut) :=
  match Obj.get (MEASUREMENTS_DATA st) floatId with
  | Obj.Inherited => ServerError
  | slot =>
      let floatData := match slot with Obj.Own l => l | _ => [] end in
      Json (map (fun p =>
                   {| po_id := profile_id p;
                      po_date := date p;
                      po_latitude := shown last_position_lat st floatId;
                      po_longitude := shown last_position_lon st floatId;
                      po_cycle_number :=
                        num_add
                          (match nth_error (Str.split "_" (profile_id p)) 1
                           with
                           | Some s => parseInt s
                           | None => NaN
                           end) (Fin 1) |})
                floatData)
  end.

(** [GET /api/floats/:floatId/trajectory]. *)
Definition api_trajectory (st : Store) (floatId : string)
  : reply (list PointOut) :=
  match Obj.get (MEASUREMENTS_DATA st) floatId with
  | Obj.Inherited => ServerError
  | slot =>
      let floatData := match slot with Obj.Own l => l | _ => [] end in
      Json (map (fun p =>
                   {| pt_timestamp := date p;
                      pt_latitude := shown last_position_lat st floatId;
                      pt_longitude := shown last_position_lon st floatId |})
                floatData)
  end.

(** The loop of [GET /api/profiles/:profileId/measurements] over the
    floats of [MEASUREMENTS_DATA]. *)
Fixpoint find_measurements (floats : list (string * list ProfileEntry))
  (profileId : string) : list Measurement :=
  match floats with
  | [] => []
  | (_, items) :: floats' =>
      match find (fun p => String.eqb (profile_id p) profileId) items with
      | Some profile => measurements profile
      | None => find_measurements floats' profileId
      end
  end.

(** [GET /api/profiles/:profileId/measurements]. *)
Definition api_measurements (st : Store) (profileId : string)
  : reply (list Measurement) :=
  Json (find_measurements (Obj.entries (MEASUREMENTS_DATA st)) profileId).

(** [POST /api/query/spatial]: the count and the identifiers. *)
Definition api_spatial (st : Store) (bbox dateRange : option (list value))
  : nat * list value :=
  let bboxArr :=
    match bbox with
    | Some arr => if (List.length arr =? 4)%nat then Some arr else None
    | None => None
    end in
  let results := FLOAT_DATA st in
  let results :=
    match bboxArr with
    | Some _ => filter (fun f => inBbox f bboxArr) results
    | None => results
    end in
  let results :=
    match dateRange with
    | Some [s; e] => filter (in_range (new_Date s) (new_Date e)) results
    | _ => results
    end in
  (List.length results, map float_id results).

Definition csv_header : string :=
  "float_id,profile_id,pressure,temperature,salinity".

Definition newline : string := String (ascii_of_nat 10) "".

(** [GET /api/export/csv/:floatId]: the body that is sent. *)
Definition api_export_csv (st : Store) (floatId : string) : string :=
  csv_header ++ newline ++
  floatId ++ ",1,0,28.1,35.2" ++ newline ++ floatId ++ ",1,50,27.6,35.1".

End Handlers.
End Backend.

(** ** The database variant: class [ArgoCsvProcessor] *)

Module Processor.

(** A row of table [argo_floats]. *)
Record FloatRow : Type := {
  float_id : string;
  wmo_number : string;
  last_position_lat : value;
  last_position_lon : value;
  deployment_date : Date;
  status : string;
  platform_type : string
}.

(** A row of table [argo_profiles]; [id] is the serial key. *)
Record ProfileRow : Type := {
  id : nat;
  p_float_id : string;
  profile_date : Date;
  cycle_number : value;
  latitude : value;
  longitude : value;
  profile_direction : string
}.

(** A row of table [argo_measurements]. *)
Record MeasurementRow : Type := {
  profile_id : nat;
  pressure : num;
  temperature : num;
  salinity : option num;
  depth : num;
  quality_flag : string
}.

(** The tables the processor writes through the Prisma client; a
    write is taken to succeed. *)
Record DB : Type := {
  argo_floats : list FloatRow;
  argo_profiles : list ProfileRow;
  argo_measurements : list MeasurementRow
}.

Definition empty_db : DB :=
  {| argo_floats := []; argo_profiles := []; argo_measurements := [] |}.

(** An element of [positions] in the float metadata. *)
Record Position : Type := {
  pos_date : Date;
  pos_latitude : num;
  pos_longitude : num
}.

(** An element of [profiles] in the float metadata. *)
Record MetaProfile : Type := {
  mp_date : Date;
  mp_profile_id : string;
  mp_latitude : num;
  mp_longitude : num;
  mp_cycle_number : value
}.

(** An entry of the object [extractFloatMetadata] returns. *)
Record FloatMeta : Type := {
  m_float_id : string;
  m_wmo_number : string;
  positions : list Position;
  profiles : list MetaProfile;
  m_status : string
}.

Definition Metadata : Type := Obj.dict FloatMeta.

(** A file of the data directory: its name and its parsed rows. *)
Definition file : Type := (string * list row)%type.

(** [path.basename(p)] on a POSIX path. *)
Definition basename (p : string) : string :=
  last (filter (fun c => negb (String.eqb c "")) (Str.split "/" p)) "".

Section Processor.
Context {B : Builtins}.

Definition isValidCoordinate (coord : value) : bool :=
  let num := Number coord in
  negb (isNaN num) && num_geb num (Fin (-90)) && num_leb num (Fin 90).

Definition pressureToDepth (pressure : num) : num :=
  num_mul pressure (Fin 1.019716).

(** [new Date('1950-01-01T00:00:00Z').getTime()]. *)
Definition argoEpoch_time : Z := -631152000000.

Definition extractDate (r : row) : Date :=
  let dateStr :=
    prop r "JULD" ||' prop r "juld" ||' prop r "DATE" ||' prop r "date" ||'
    prop r "REFERENCE_DATE_TIME" in
  if negb (truthy dateStr) then default_date
  else
    let date := new_Date dateStr in
    let date :=
      match dateStr with
      | VNum n =>
          if isNaN (getTime date)
          then TimeClip
                 (num_add (Fin (inject_Z argoEpoch_time))
                    (num_mul (num_mul (num_mul (num_mul n (Fin 24)) (Fin 60))
                                      (Fin 60)) (Fin 1000)))
          else date
      | _ => date
      end in
    if isNaN (getTime date) then default_date else date.

(** [upsertFloat]: the update branch rewrites the two position
    columns of the row found by [float_id], the create branch inserts
    a new row. *)
Definition upsertFloat (db : DB) (floatId : string) (lat lon : value) : DB :=
  let present :=
    existsb (fun f => String.eqb (float_id f) floatId) (argo_floats db) in
  let floats :=
    if present then
      map (fun f =>
             if String.eqb (float_id f) floatId
             then {| float_id := float_id f;
                     wmo_number := wmo_number f;
                     last_position_lat := lat;
                     last_position_lon := lon;
                     deployment_date := deployment_date f;
                     status := status f;
                     platform_type := platform_type f |}
             else f) (argo_floats db)
    else
      (argo_floats db ++
       [ {| float_id := floatId;
            wmo_number := floatId;
            last_position_lat := lat;
            last_position_lon := lon;
            deployment_date := default_date;
            status := "active";
            platform_type := "ARGO_FLOAT" |} ])%list in
  {| argo_floats := floats;
     argo_profiles := argo_profiles db;
     argo_measurements := argo_measurements db |}.

(** [insertProfile]: returns the row with its new serial key. *)
Definition insertProfile (db : DB) (floatId : string)
  (lat lon cycle : value) (date : Date) : DB * ProfileRow :=
  let profile :=
    {| id := S (List.length (argo_profiles db));
       p_float_id := floatId;
       profile_date := date;
       cycle_number := cycle;
       latitude := lat;
       longitude := lon;
       profile_direction := "A" |} in
  ({| argo_floats := argo_floats db;
      argo_profiles := (argo_profiles db ++ [profile])%list;
      argo_measurements := argo_measurements db |}, profile).

(** The loop of [insertMeasurements] that fills [validMeasurements]. *)
Fixpoint valid_measurements (profileId : nat) (acc : list MeasurementRow)
  (rows : list row) : list MeasurementRow :=
  match rows with
  | [] => acc
  | r :: rows' =>
      let pressure := prop r "PRES" in
      let temperature := prop r "TEMP" in
      let salinity := prop r "PSAL" in
      if isValidValue pressure && isValidValue temperature
      then valid_measurements profileId
             (acc ++
              [ {| profile_id := profileId;
                   pressure := Number pressure;
                   temperature := Number temperature;
                   salinity := if isValidValue salinity
                               then Some (Number salinity) else None;
                   depth := pressureToDepth (Number pressure);
                   quality_flag := "1" |} ])%list rows'
      else valid_measurements profileId acc rows'
  end.

Definition insertMeasurements (db : DB) (profileId : nat)
  (measurements : list row) : DB :=
  let validMeasurements := valid_measurements profileId [] measurements in
  if (0 <? List.length validMeasurements)%nat
  then {| argo_floats := argo_floats db;
          argo_profiles := argo_profiles db;
          argo_measurements :=
            (argo_measurements db ++ validMeasurements)%list |}
  else db.

(** The test [!lat || !lon || !isValidCoordinate(lat) ||
    !isValidCoordinate(lon)]. *)
Definition unusable (lat lon : value) : bool :=
  negb (truthy lat) || negb (truthy lon) ||
  negb (isValidCoordinate lat) || negb (isValidCoordinate lon).

(** The position [processProfileData] works with after the look-up
    in the float metadata; [None] when the look-up throws. *)
Definition resolve_position (floatMetadata : Metadata) (floatId : value)
  (lat lon : value) : option (value * value) :=
  if unusable lat lon then
    match Obj.get floatMetadata (ToString floatId) with
    | Obj.Missing => Some (lat, lon)
    | Obj.Inherited => None
    | Obj.Own metadata =>
        match rev (positions metadata) with
        | lastPosition :: _ =>
            Some (lat ||' VNum (pos_latitude lastPosition),
                  lon ||' VNum (pos_longitude lastPosition))
        | [] => Some (lat, lon)
        end
    end
  else Some (lat, lon).

(** [processProfileData]; an exception is caught inside and leaves
    the tables as they are. *)
Definition processProfileData (floatMetadata : Metadata) (db : DB)
  (entry : string * list row) : DB :=
  let '(profileId, profileData) := entry in
  match profileData with
  | [] => db
  | sample :: _ =>
      let floatId :=
        prop sample "PLATFORM_NUMBER" ||' prop sample "platform_number" ||'
        prop sample "FLOAT_ID" ||' prop sample "float_id" ||'
        VStr profileId in
      let lat := prop sample "LATITUDE" ||' prop sample "latitude" ||' VNull in
      let lon :=
        prop sample "LONGITUDE" ||' prop sample "longitude" ||' VNull in
      let cycleNumber :=
        prop sample "CYCLE_NUMBER" ||' prop sample "cycle_number" ||'
        VNum (Fin 0) in
      let date := extractDateFromFilename (basename profileId) in
      match resolve_position floatMetadata floatId lat lon with
      | None => db
      | Some (lat, lon) =>
          if unusable lat lon then db
          else
            let db := upsertFloat db (ToString floatId) lat lon in
            let '(db, profile) :=
              insertProfile db (ToString floatId) lat lon cycleNumber date in
            insertMeasurements db (id profile) profileData
      end
  end.

(** [processCsvFile]: an exception of [groupByProfile] is caught. *)
Definition processCsvFile (floatMetadata : Metadata) (db : DB) (f : file)
  : DB :=
  match groupByProfile (snd f) with
  | Some profileGroups =>
      fold_left (processProfileData floatMetadata)
                (Obj.entries profileGroups) db
  | None => db
  end.

(** The body of the inner loop of [extractFloatMetadata]. *)
Definition note_position (date : Date) (floatData : Metadata)
  (entry : string * list row) : outcome Metadata :=
  let '(profileId, profileData) := entry in
  match profileData with
  | [] => Threw floatData
  | sample :: _ =>
      let lat := prop sample "LATITUDE" ||' prop sample "latitude" in
      let lon := prop sample "LONGITUDE" ||' prop sample "longitude" in
      let floatId :=
        prop sample "PLATFORM_NUMBER" ||' prop sample "platform_number" ||'
        prop sample "FLOAT_ID" ||' prop sample "float_id" ||'
        VStr profileId in
      if truthy lat && truthy lon &&
         isValidCoordinate lat && isValidCoordinate lon
      then
        let key := ToString floatId in
        let position :=
          {| pos_date := date;
             pos_latitude := Number lat;
             pos_longitude := Number lon |} in
        let profile :=
          {| mp_date := date;
             mp_profile_id := profileId;
             mp_latitude := Number lat;
             mp_longitude := Number lon;
             mp_cycle_number :=
               prop sample "CYCLE_NUMBER" ||' prop sample "cycle_number" ||'
               VNum (Fin 0) |} in
        match Obj.get floatData key with
        | Obj.Inherited => Threw floatData
        | slot =>
            let m :=
              match slot with
              | Obj.Own m => m
              | _ => {| m_float_id := key;
                        m_wmo_number := key;
                        positions := [];
                        profiles := [];
                        m_status := "active" |}
              end in
            Done (Obj.set floatData key
                    {| m_float_id := m_float_id m;
                       m_wmo_number := m_wmo_number m;
                       positions := (positions m ++ [position])%list;
                       profiles := (profiles m ++ [profile])%list;
                       m_status := m_status m |})
        end
      else Done floatData
  end.

(** [extractFloatMetadata(files)]. *)
Definition extractFloatMetadata (files : list file) : Metadata :=
  fold_left
    (fun floatData f =>
       let date := extractDateFromFilename (fst f) in
       match groupByProfile (snd f) with
       | Some profiles =>
           state_of (for_each (note_position date) (Obj.entries profiles)
                              floatData)
       | None => floatData
       end)
    files [].

(** The files [processAllFiles] takes from a directory listing. *)
Definition discover (dir : list file) : list file :=
  Str.sort_by fst (filter (fun f => Str.endsWith (fst f) "_prof.csv") dir).

(** [processAllFiles()], run on the tables [db]. *)
Definition processAllFiles (db : DB) (dir : list file) : DB :=
  let files := discover dir in
  let floatMetadata := extractFloatMetadata files in
  fold_left (processCsvFile floatMetadata) files db.

End Processor.
End Processor.

(** ** A host for running the code on concrete inputs

    [PlainHost] reads and prints plain decimal literals (an optional
    sign, digits, an optional fraction) and recognises no date format
    besides the date-only form.  It is used to evaluate the scenarios
    below, whose inputs stay inside that fragment. *)

Module Host.

(** The value of [digits] read as a fraction: [0.digits]. *)
Definition fraction (digits : string) : Q :=
  inject_Z (Z.of_N (Str.digits_val digits)) /
  inject_Z (10 ^ Z.of_nat (String.length digits)).

Definition unsigned_decimal (s : string) : num :=
  match Str.split "." s with
  | [i] =>
      if negb (String.eqb i "") && Str.all_digits i
      then Fin (inject_Z (Z.of_N (Str.digits_val i))) else NaN
  | [i; f] =>
      if negb (String.eqb i "" && String.eqb f "") &&
         Str.all_digits i && Str.all_digits f
      then Fin (inject_Z (Z.of_N (Str.digits_val i)) + fraction f) else NaN
  | _ => NaN
  end.

Definition negate (n : num) : num :=
  match n with
  | Fin q => Fin (- q)
  | PosInf => NegInf
  | NegInf => PosInf
  | NaN => NaN
  end.

Definition decimal (s : string) : num :=
  match s with
  | "" => Fin 0
  | String "-" s' => negate (unsigned_decimal s')
  | String "+" s' => unsigned_decimal s'
  | _ => unsigned_decimal s
  end.

(** The digits of the fraction [n / d], at most [fuel] of them. *)
Fixpoint fraction_digits (fuel : nat) (n d : Z) : string :=
  match fuel with
  | O => ""
  | S fuel' =>
      if n =? 0 then ""
      else decimal_of_Z (10 * n / d) ++ fraction_digits fuel' (10 * n mod d) d
  end.

Definition print (q : Q) : string :=
  let r := Qred q in
  let n := Z.abs (Qnum r) in
  let d := Zpos (Qden r) in
  (if Qnum r <? 0 then "-" else "") ++
  decimal_of_Z (n / d) ++ "." ++ fraction_digits 20 (n mod d) d.

(** The digits a string starts with. *)
Fixpoint leading_digits (s : string) : string :=
  match s with
  | "" => ""
  | String c s' => if Str.is_digit c then String c (leading_digits s') else ""
  end.

Definition leading_integer (s : string) : num :=
  let body := match s with String "-" s' | String "+" s' => s' | _ => s end in
  let ds := leading_digits body in
  if String.eqb ds "" then NaN
  else
    let v := Fin (inject_Z (Z.of_N (Str.digits_val ds))) in
    match s with String "-" _ => negate v | _ => v end.

#[export] Instance PlainHost : Builtins := {|
  StringToNumber := decimal;
  NumberToString := print;
  legacyDateParse := fun _ => None;
  parseInt := leading_integer
|}.

End Host.

(** ** Inputs of the scenarios *)

Module Scenario.

Definition num_cell (q : Q) : value := VNum (Fin q).


(** Scenario B: a row north of the pole. *)
Definition polar_row : row :=
  [("LATITUDE", num_cell 95.0); ("LONGITUDE", num_cell 70.0)].

(** Scenario C: a Julian-day offset. *)
Definition juld_row : row := [("JULD", num_cell 25854)].

(** Scenario D: the same float in two daily files. *)
Definition day1_row : row :=
  [("PLATFORM_NUMBER", VStr "2901001");
   ("LATITUDE", num_cell 10.0); ("LONGITUDE", num_cell 70.0);
   ("PRES", num_cell 5.0); ("TEMP", num_cell 28.1)].

Definition day2_row : row :=
  [("PLATFORM_NUMBER", VStr "2901001");
   ("LATITUDE", num_cell 10.5); ("LONGITUDE", num_cell 70.3);
   ("PRES", num_cell 5.0); ("TEMP", num_cell 27.9)].

Definition two_days : list (string * list row) :=
  [("20201101_prof.csv", [day1_row]); ("20201102_prof.csv", [day2_row])].

(** A profile on the equator, of a float seen before at (10.5, 70.3). *)
Definition equator_row : row :=
  [("PLATFORM_NUMBER", VStr "2901001");
   ("LATITUDE", num_cell 0); ("LONGITUDE", num_cell 71.0);
   ("PRES", num_cell 5.0); ("TEMP", num_cell 27.9)].

End Scenario.

(** ** Vocabulary of the statements *)

(** The numbers [isValidValue] lets through. *)
Definition usable_number (n : num) : Prop :=
  match n with
  | NaN | NegInf => False
  | PosInf => True
  | Fin q => ~ (q == 99999)%Q /\ (-999 < q)%Q
  end.

(** [n] is a finite number of the closed interval from [lo] to [hi]. *)
Definition within (lo hi : Q) (n : num) : Prop :=
  exists x : Q, n = Fin x /\ (lo <= x)%Q /\ (x <= hi)%Q.

(** The query string [?bbox=s] of [GET /api/floats]. *)
Definition bbox_query (s : string) : Backend.FloatsQuery :=
  {| Backend.q_bbox := Some s;
     Backend.q_date_range := None;
     Backend.q_status := None |}.

(** The measurements held for a float: those of all its profiles. *)
Definition measurements_of (st : Backend.Store) (floatId : string)
  : list Backend.Measurement :=
  match Obj.own (Backend.MEASUREMENTS_DATA st) floatId with
  | Some items => List.concat (map Backend.measurements items)
  | None => []
  end.

(** The lines of an exported document. *)
Definition lines (doc : string) : list string :=
  Str.split (ascii_of_nat 10) doc.

Fixpoint contains (c : ascii) (s : string) : bool :=
  match s with
  | "" => false
  | String a s' => Ascii.eqb a c || contains c s'
  end.

(** No own key of the dictionary is a name inherited from
    [Object.prototype]. *)
Definition no_inherited_own {A : Type} (o : Obj.dict A) : Prop :=
  forall k, Obj.inherited k = true -> Obj.own o k = None.

(** What [loadCSVData] maintains: the floats already registered are
    kept as they are, and no inherited name becomes a key of
    [MEASUREMENTS_DATA]. *)
Definition extends (st st' : Backend.Store) : Prop :=
  (exists extra,
      Backend.FLOAT_DATA st' = (Backend.FLOAT_DATA st ++ extra)%list) /\
  (no_inherited_own (Backend.MEASUREMENTS_DATA st) ->
   no_inherited_own (Backend.MEASUREMENTS_DATA st')).

(** The value [extractDate] decodes: the first truthy date column. *)
Definition date_source (r : row) : value :=
  prop r "JULD" ||' prop r "juld" ||' prop r "DATE" ||' prop r "date" ||'
  prop r "REFERENCE_DATE_TIME".

(** The key under which [groupByProfile] files a row. *)
Definition profile_key {B : Builtins} (r : row) : string :=
  ToString (prop r "PROFILE" ||' prop r "profile" ||' VNum (Fin 0)).

(** The rows of [data] filed under the key [k], in their order. *)
Definition rows_of_key {B : Builtins} (k : string) (data : list row)
  : list row :=
  filter (fun r => String.eqb (profile_key r) k) data.

(** What the loop of [groupByProfile] has built after the rows
    [seen]. *)
Definition grouped {B : Builtins} (groups : Obj.dict (list row))
  (seen : list row) : Prop :=
  NoDup (map fst groups) /\
  (forall r, In r seen -> Obj.inherited (profile_key r) = false) /\
  (forall k, Obj.own groups k =
             match rows_of_key k seen with
             | [] => None
             | rows => Some rows
             end).

(** Every element is followed by one whose name is not smaller. *)
Fixpoint ascending {A : Type} (key : A -> string) (l : list A) : Prop :=
  match l with
  | [] => True
  | x :: l' =>
      match l' with
      | [] => True
      | y :: _ => String.leb (key x) (key y) = true
      end /\ ascending key l'
  end.

(** The float records of [index.js] after a group of float [floatId]
    at ([lat], [lon]) in a file dated [date] was processed. *)
Definition registered {B : Builtins} (st : Backend.Store) (floatId : value)
  (lat lon : num) (date : Date) : list Backend.FloatRec :=
  match find (fun f => strict_eq (Backend.float_id f) floatId)
             (Backend.FLOAT_DATA st) with
  | Some _ => Backend.FLOAT_DATA st
  | None =>
      (Backend.FLOAT_DATA st ++
       [ {| Backend.float_id := floatId;
            Backend.wmo_number := floatId;
            Backend.last_position_lat := lat;
            Backend.last_position_lon := lon;
            Backend.status := "active";
            Backend.platform_type := "ARGO_FLOAT";
            Backend.last_profile_date := date |} ])%list
  end.

(** The profile entry [index.js] stores for a group. *)
Definition stored_item {B : Builtins} (key profileId : string) (date : Date)
  (rows : list row) : Backend.ProfileEntry :=
  {| Backend.profile_id := key ++ "_" ++ profileId;
     Backend.date := date;
     Backend.measurements := Backend.build_measurements rows |}.

(** A float record as [loadCSVData] creates them. *)
Definition well_formed_float (f : Backend.FloatRec) : Prop :=
  within (-180) 180 (Backend.last_position_lat f) /\
  within (-180) 180 (Backend.last_position_lon f) /\
  Backend.status f = "active" /\
  Backend.platform_type f = "ARGO_FLOAT" /\
  Backend.wmo_number f = Backend.float_id f /\
  truthy (Backend.float_id f) = true.

(** No two records of the list have the same [float_id]. *)
Fixpoint distinct_ids (l : list Backend.FloatRec) : Prop :=
  match l with
  | [] => True
  | f :: l' =>
      Forall (fun g => strict_eq (Backend.float_id f) (Backend.float_id g)
                       = false) l' /\
      distinct_ids l'
  end.

(** The query [q] without its status parameter. *)
Definition without_status (q : Backend.FloatsQuery) : Backend.FloatsQuery :=
  {| Backend.q_bbox := Backend.q_bbox q;
     Backend.q_date_range := Backend.q_date_range q;
     Backend.q_status := None |}.

(** How [MEASUREMENTS_DATA] and [FLOAT_DATA] fit together. *)
Definition indexed {B : Builtins} (st : Backend.Store) : Prop :=
  NoDup (map fst (Backend.MEASUREMENTS_DATA st)) /\
  (forall key items,
      In (key, items) (Backend.MEASUREMENTS_DATA st) ->
      items <> [] /\
      Obj.inherited key = false /\
      (exists f v, In f (Backend.FLOAT_DATA st) /\
                   strict_eq (Backend.float_id f) v = true /\
                   ToString v = key) /\
      Forall (fun p => exists profileId,
                  Backend.profile_id p = key ++ "_" ++ profileId) items) /\
  (forall f, In f (Backend.FLOAT_DATA st) ->
             Obj.inherited (ToString (Backend.float_id f)) = true \/
             exists items,
               Obj.own (Backend.MEASUREMENTS_DATA st)
                       (ToString (Backend.float_id f)) = Some items).

(** The columns of a float row that [upsertFloat] does not write
    when the row exists. *)
Definition fixed_columns (f : Processor.FloatRow)
  : string * string * Date * string * string :=
  (Processor.float_id f, Processor.wmo_number f,
   Processor.deployment_date f, Processor.status f,
   Processor.platform_type f).

(** The tables are consistent: one row per float identifier, every
    profile belongs to a float of the table, the profile keys are 1,
    2, ... in the order of the rows, and every measurement belongs to
    a profile of the table. *)
Definition consistent (db : Processor.DB) : Prop :=
  NoDup (map Processor.float_id (Processor.argo_floats db)) /\
  (forall p, In p (Processor.argo_profiles db) ->
             In (Processor.p_float_id p)
                (map Processor.float_id (Processor.argo_floats db))) /\
  map Processor.id (Processor.argo_profiles db) =
  seq 1 (List.length (Processor.argo_profiles db)) /\
  (forall m, In m (Processor.argo_measurements db) ->
             (1 <= Processor.profile_id m <=
              List.length (Processor.argo_profiles db))%nat).

(** The tables after a group of float [floatId] was stored at
    ([lat], [lon]). *)
Definition stored_group {B : Builtins} (db : Processor.DB)
  (floatId : string) (lat lon cycle : value) (date : Date)
  (rows : list row) : Processor.DB :=
  Processor.insertMeasurements
    (fst (Processor.insertProfile
            (Processor.upsertFloat db floatId lat lon)
            floatId lat lon cycle date))
    (S (List.length (Processor.argo_profiles db))) rows.

(** The profile row [insertProfile] creates for a group. *)
Definition profile_row (n : nat) (floatId : string) (lat lon cycle : value)
  (date : Date) : Processor.ProfileRow :=
  {| Processor.id := S n;
     Processor.p_float_id := floatId;
     Processor.profile_date := date;
     Processor.cycle_number := cycle;
     Processor.latitude := lat;
     Processor.longitude := lon;
     Processor.profile_direction := "A" |}.

(** An entry of the float metadata as [extractFloatMetadata] builds
    them, under the key [key]. *)
Definition sound_entry (key : string) (m : Processor.FloatMeta) : Prop :=
  Obj.inherited key = false /\
  Processor.m_float_id m = key /\
  Processor.m_wmo_number m = key /\
  Processor.m_status m = "active" /\
  Processor.positions m <> [] /\
  map (fun q => (Processor.pos_date q, Processor.pos_latitude q,
                 Processor.pos_longitude q)) (Processor.positions m) =
  map (fun q => (Processor.mp_date q, Processor.mp_latitude q,
                 Processor.mp_longitude q)) (Processor.profiles m) /\
  Forall (fun q => within (-90) 90 (Processor.pos_latitude q) /\
                   within (-90) 90 (Processor.pos_longitude q))
         (Processor.positions m).

Definition sound_metadata (md : Processor.Metadata) : Prop :=
  NoDup (map fst md) /\
  forall key m, In (key, m) md -> sound_entry key m.

(** A salinity is [null] or a number [isValidValue] lets through. *)
Definition usable_or_null (s : option num) : Prop :=
  match s with
  | Some n => usable_number n
  | None => True
  end.

(** ** Further inputs *)

Module Inputs.

(** A row whose profile key is a name every object inherits. *)
Definition inherited_key_row : row :=
  [("PROFILE", VStr "constructor");
   ("LATITUDE", Scenario.num_cell 10.0);
   ("LONGITUDE", Scenario.num_cell 70.0)].

(** The first row of scenario D with the platform number as the CSV
    parser types it, a number. *)
Definition numeric_platform_row : row :=
  [("PLATFORM_NUMBER", Scenario.num_cell 2901001);
   ("LATITUDE", Scenario.num_cell 10.0);
   ("LONGITUDE", Scenario.num_cell 70.0);
   ("PRES", Scenario.num_cell 5.0); ("TEMP", Scenario.num_cell 28.1)].

(** A date column far outside the range of time values. *)
Definition huge_juld_row : row :=
  [("JULD", Scenario.num_cell 10000000000000000)].

(** The float record of scenario D. *)
Definition float_2901001 : Backend.FloatRec :=
  {| Backend.float_id := VStr "2901001";
     Backend.wmo_number := VStr "2901001";
     Backend.last_position_lat := Fin 10.0;
     Backend.last_position_lon := Fin 70.0;
     Backend.status := "active";
     Backend.platform_type := "ARGO_FLOAT";
     Backend.last_profile_date := Some 1604188800000 |}.

End Inputs.

(** * Properties *)

(** ** Numbers and the validity predicate *)

Section NumberFacts.

Lemma num_gtb_Fin (x y : Q) : num_gtb (Fin x) (Fin y) = true <-> (y < x)%Q.
Proof.
  unfold num_gtb, num_ltb. rewrite negb_true_iff.
  split; intro H.
  - apply Qnot_le_lt. intro Hle. apply Qle_bool_iff in Hle. congruence.
  - destruct (Qle_bool x y) eqn:E; [|reflexivity].
    apply Qle_bool_iff in E. exfalso. apply (Qlt_not_le _ _ H E).
Qed.

Lemma num_leb_Fin (x y : Q) : num_leb (Fin x) (Fin y) = true <-> (x <= y)%Q.
Proof. apply Qle_bool_iff. Qed.

Lemma num_geb_Fin (x y : Q) : num_geb (Fin x) (Fin y) = true <-> (y <= x)%Q.
Proof. apply Qle_bool_iff. Qed.

Lemma num_eqb_Fin (x y : Q) : num_eqb (Fin x) (Fin y) = true <-> (x == y)%Q.
Proof. apply Qeq_bool_iff. Qed.

Lemma Qis_zero_iff (q : Q) : Qis_zero q = true <-> (q == 0)%Q.
Proof. apply Qeq_bool_iff. Qed.

(** The literal of the depth factor. *)
Lemma depth_factor_value : (1.019716 == 1019716 # 1000000)%Q.
Proof. reflexivity. Qed.

End NumberFacts.

Section ValidityFacts.
Context {B : Builtins}.

Lemma strict_eq_VNull (v : value) : strict_eq v VNull = true <-> v = VNull.
Proof. destruct v; simpl; split; congruence. Qed.

Lemma strict_eq_VUndefined (v : value) :
  strict_eq v VUndefined = true <-> v = VUndefined.
Proof. destruct v; simpl; split; congruence. Qed.

Lemma strict_eq_empty (v : value) :
  strict_eq v (VStr "") = true <-> v = VStr "".
Proof.
  destruct v; simpl; try (split; congruence).
  rewrite String.eqb_eq. split; congruence.
Qed.

Lemma usable_number_checks (n : num) :
  negb (isNaN n) && negb (num_eqb n (Fin 99999)) && num_gtb n (Fin (-999))
  = true <-> usable_number n.
Proof.
  destruct n as [| | |q]; simpl; try (split; [discriminate | tauto]);
    try tauto.
  rewrite andb_true_iff, negb_true_iff.
  change (negb (Qle_bool q (-999))) with (num_gtb (Fin q) (Fin (-999))).
  rewrite num_gtb_Fin. split.
  - intros [Hne Hgt]. split; [|exact Hgt].
    intro Heq. apply Qeq_bool_iff in Heq. congruence.
  - intros [Hne Hgt]. split; [|exact Hgt].
    destruct (Qeq_bool q 99999) eqn:E; [|reflexivity].
    apply Qeq_bool_iff in E. contradiction.
Qed.

Lemma isValidValue_iff (v : value) :
  isValidValue v = true <->
  v <> VNull /\ v <> VUndefined /\ v <> VStr "" /\ usable_number (Number v).
Proof.
  unfold isValidValue.
  rewrite <- usable_number_checks.
  rewrite <- (strict_eq_VNull v), <- (strict_eq_VUndefined v),
          <- (strict_eq_empty v).
  destruct (strict_eq v VNull), (strict_eq v VUndefined),
           (strict_eq v (VStr "")); cbn [negb andb];
    rewrite ?andb_false_r, ?andb_true_r; intuition congruence.
Qed.

Lemma isValidValue_false_iff (v : value) :
  isValidValue v = false <->
  ~ (v <> VNull /\ v <> VUndefined /\ v <> VStr "" /\ usable_number (Number v)).
Proof. rewrite <- isValidValue_iff. symmetry. apply not_true_iff_false. Qed.

(** C5. [isValidValue] is false on [null], on the empty string, on
    99999.0, on every value that does not convert to a number and on
    every number at or below -999; it is true on every other number.
    In general it holds exactly of the values that are neither [null],
    [undefined] nor the empty string and whose conversion is a number
    above -999 other than 99999. *)
Theorem isValidValue_contract :
  isValidValue VNull = false /\
  isValidValue VUndefined = false /\
  isValidValue (VStr "") = false /\
  isValidValue (VNum (Fin 99999.0)) = false /\
  (forall v, isNaN (Number v) = true -> isValidValue v = false) /\
  (forall x : Q, (x <= -999)%Q -> isValidValue (VNum (Fin x)) = false) /\
  isValidValue (VNum NegInf) = false /\
  (forall x : Q, ~ (x == 99999)%Q -> (-999 < x)%Q ->
                 isValidValue (VNum (Fin x)) = true) /\
  (forall v, isValidValue v = true <->
             v <> VNull /\ v <> VUndefined /\ v <> VStr "" /\
             usable_number (Number v)).
Proof.
  do 2 (split; [reflexivity|]).
  split.
  { apply isValidValue_false_iff. intros (_ & _ & Hne & _). now apply Hne. }
  split; [reflexivity|].
  split.
  { intros v Hnan. apply isValidValue_false_iff.
    intros (_ & _ & _ & Hu). destruct (Number v); simpl in *;
      try discriminate; exact Hu. }
  split.
  { intros x Hle. apply isValidValue_false_iff.
    intros (_ & _ & _ & Hu). simpl in Hu. destruct Hu as [_ Hgt].
    apply (Qlt_not_le _ _ Hgt Hle). }
  split; [reflexivity|].
  split.
  { intros x Hne Hgt. apply isValidValue_iff.
    repeat split; try discriminate; assumption. }
  exact isValidValue_iff.
Qed.

End ValidityFacts.

(** ** Measurements: one record per row with valid pressure and
    temperature, and its depth *)

Section MeasurementFacts.
Context {B : Builtins}.
Local Open Scope list_scope.



(** The accumulator of the loop of [insertMeasurements] only grows at
    its end. *)
Lemma valid_measurements_acc (pid : nat) (rows : list row) :
  forall acc,
    Processor.valid_measurements pid acc rows =
    acc ++ Processor.valid_measurements pid [] rows.
Proof.
  induction rows as [|r rows IH]; intro acc; simpl.
  - now rewrite app_nil_r.
  - destruct (isValidValue (prop r "PRES") && isValidValue (prop r "TEMP")).
    + rewrite IH. rewrite (IH [_]). now rewrite <- app_assoc.
    + apply IH.
Qed.



Lemma insertMeasurements_appends (db : Processor.DB) (pid : nat)
  (rows : list row) :
  Processor.argo_measurements (Processor.insertMeasurements db pid rows) =
  Processor.argo_measurements db ++ Processor.valid_measurements pid [] rows.
Proof.
  unfold Processor.insertMeasurements.
  destruct (Processor.valid_measurements pid [] rows) as [|m ms]; simpl.
  - now rewrite app_nil_r.
  - reflexivity.
Qed.


Lemma num_mul_Fin (p c : Q) : num_mul (Fin p) (Fin c) = Fin (p * c).
Proof. reflexivity. Qed.




End MeasurementFacts.

(** ** The bounding-box filter of [GET /api/floats] *)

Section BboxFacts.
Context {B : Builtins}.
Local Open Scope list_scope.

Lemma num_geb_min_comm (n a b : num) :
  num_geb n (Math_min a b) = num_geb n (Math_min b a).
Proof.
  destruct n as [| | |z], a as [| | |x], b as [| | |y]; try reflexivity.
  unfold num_geb, Math_min, num_leb. now rewrite Q.min_comm.
Qed.

Lemma num_leb_max_comm (n a b : num) :
  num_leb n (Math_max a b) = num_leb n (Math_max b a).
Proof.
  destruct n as [| | |z], a as [| | |x], b as [| | |y]; try reflexivity.
  unfold Math_max, num_leb. now rewrite Q.max_comm.
Qed.

(** The four ways of naming the same rectangle by two opposite
    corners give the same test. *)
Lemma inBbox_corner_order (f : Backend.FloatRec) (lat1 lon1 lat2 lon2 : value) :
  Backend.inBbox f (Some [lat2; lon2; lat1; lon1]) =
  Backend.inBbox f (Some [lat1; lon1; lat2; lon2]) /\
  Backend.inBbox f (Some [lat1; lon2; lat2; lon1]) =
  Backend.inBbox f (Some [lat1; lon1; lat2; lon2]) /\
  Backend.inBbox f (Some [lat2; lon1; lat1; lon2]) =
  Backend.inBbox f (Some [lat1; lon1; lat2; lon2]).
Proof.
  unfold Backend.inBbox. simpl.
  repeat split;
    rewrite ?(num_geb_min_comm _ (Number lat2) (Number lat1)),
            ?(num_leb_max_comm _ (Number lat2) (Number lat1)),
            ?(num_geb_min_comm _ (Number lon2) (Number lon1)),
            ?(num_leb_max_comm _ (Number lon2) (Number lon1));
    reflexivity.
Qed.

Lemma within_checks (lo hi : Q) (n : num) :
  num_geb n (Fin lo) && num_leb n (Fin hi) = true <-> within lo hi n.
Proof.
  unfold within. destruct n as [| | |x]; simpl.
  - split; [discriminate | intros (x & H & _); discriminate].
  - split; [discriminate | intros (x & H & _); discriminate].
  - split; [discriminate | intros (x & H & _); discriminate].
  - rewrite andb_true_iff, !Qle_bool_iff. split.
    + intros [H1 H2]. exists x. tauto.
    + intros (y & [= ->] & H1 & H2). tauto.
Qed.

Lemma inBbox_finite (f : Backend.FloatRec) (lat1 lon1 lat2 lon2 : Q) :
  Backend.inBbox f (Some [VNum (Fin lat1); VNum (Fin lon1);
                          VNum (Fin lat2); VNum (Fin lon2)]) = true <->
  within (Qmin lat1 lat2) (Qmax lat1 lat2) (Backend.last_position_lat f) /\
  within (Qmin lon1 lon2) (Qmax lon1 lon2) (Backend.last_position_lon f).
Proof.
  unfold Backend.inBbox. simpl.
  rewrite <- !within_checks, !andb_true_iff. tauto.
Qed.

(** What the handler computes from a bounding box of four parts. *)
Lemma api_floats_bbox (st : Backend.Store) (s a b c d : string) :
  s <> "" -> Str.split "," s = [a; b; c; d] ->
  Backend.api_floats st (bbox_query s) =
  filter (fun f => Backend.inBbox f
                     (Some [VNum (StringToNumber a); VNum (StringToNumber b);
                            VNum (StringToNumber c); VNum (StringToNumber d)]))
         (Backend.FLOAT_DATA st).
Proof.
  intros Hs Hsplit. unfold Backend.api_floats, bbox_query, Backend.given.
  simpl. destruct (String.eqb s "") eqn:E.
  - apply String.eqb_eq in E. contradiction.
  - simpl. rewrite Hsplit. reflexivity.
Qed.

(** C6. For a bounding box whose four parts read as the finite
    numbers [lat1], [lon1], [lat2], [lon2], [GET /api/floats] returns
    the floats of [FLOAT_DATA], in their order, whose last position
    lies in the closed rectangle spanned by the sorted corners, and
    the box named by its two corners in the other order, or by the
    two other corners of the rectangle, returns the same list. *)
Theorem list_floats_bbox_exact (st : Backend.Store) (s a b c d : string)
  (lat1 lon1 lat2 lon2 : Q) :
  s <> "" ->
  Str.split "," s = [a; b; c; d] ->
  StringToNumber a = Fin lat1 -> StringToNumber b = Fin lon1 ->
  StringToNumber c = Fin lat2 -> StringToNumber d = Fin lon2 ->
  (forall f,
      In f (Backend.api_floats st (bbox_query s)) <->
      In f (Backend.FLOAT_DATA st) /\
      within (Qmin lat1 lat2) (Qmax lat1 lat2) (Backend.last_position_lat f) /\
      within (Qmin lon1 lon2) (Qmax lon1 lon2) (Backend.last_position_lon f))
  /\
  (exists keep, Backend.api_floats st (bbox_query s) =
                filter keep (Backend.FLOAT_DATA st)) /\
  (forall s', s' <> "" ->
              Str.split "," s' = [c; d; a; b] \/
              Str.split "," s' = [a; d; c; b] \/
              Str.split "," s' = [c; b; a; d] ->
              Backend.api_floats st (bbox_query s') =
              Backend.api_floats st (bbox_query s)).
Proof.
  intros Hs Hsplit Ha Hb Hc Hd.
  rewrite (api_floats_bbox st s a b c d Hs Hsplit), Ha, Hb, Hc, Hd.
  split; [|split].
  - intro f. rewrite filter_In, inBbox_finite. tauto.
  - eexists. reflexivity.
  - intros s' Hs' [Hsplit' | [Hsplit' | Hsplit']];
      rewrite (api_floats_bbox st s' _ _ _ _ Hs' Hsplit'), Ha, Hb, Hc, Hd;
      apply filter_ext; intro f; apply inBbox_corner_order.
Qed.

End BboxFacts.

(** ** Plain objects *)

Section ObjFacts.
Context {A : Type}.

Lemma own_set (o : Obj.dict A) (k k' : string) (a : A) :
  Obj.own (Obj.set o k a) k' =
  if String.eqb k k' then Some a else Obj.own o k'.
Proof.
  induction o as [|[k0 a0] o IH]; simpl.
  - reflexivity.
  - destruct (String.eqb k0 k) eqn:E0; simpl.
    + apply String.eqb_eq in E0. subst k0.
      destruct (String.eqb k k'); reflexivity.
    + rewrite IH. destruct (String.eqb k k') eqn:E.
      * apply String.eqb_eq in E. subst k'. now rewrite E0.
      * reflexivity.
Qed.

Lemma get_Own (o : Obj.dict A) (k : string) (a : A) :
  Obj.get o k = Obj.Own a <-> Obj.own o k = Some a.
Proof.
  unfold Obj.get. destruct (Obj.own o k).
  - split; congruence.
  - destruct (Obj.inherited k); split; discriminate.
Qed.

Lemma get_Missing (o : Obj.dict A) (k : string) :
  Obj.get o k = Obj.Missing <->
  Obj.own o k = None /\ Obj.inherited k = false.
Proof.
  unfold Obj.get. destruct (Obj.own o k).
  - split; [discriminate | intros [? _]; discriminate].
  - destruct (Obj.inherited k); split; try discriminate; try tauto.
    intros [_ ?]; discriminate.
Qed.

Lemma get_Inherited (o : Obj.dict A) (k : string) :
  Obj.get o k = Obj.Inherited <->
  Obj.own o k = None /\ Obj.inherited k = true.
Proof.
  unfold Obj.get. destruct (Obj.own o k).
  - split; [discriminate | intros [? _]; discriminate].
  - destruct (Obj.inherited k); split; try discriminate; try tauto.
    intros [_ ?]; discriminate.
Qed.

Lemma no_inherited_own_nil : no_inherited_own (@nil (string * A)).
Proof. intros k _. reflexivity. Qed.

Lemma no_inherited_own_set (o : Obj.dict A) (k : string) (a : A) :
  no_inherited_own o -> Obj.inherited k = false ->
  no_inherited_own (Obj.set o k a).
Proof.
  intros Ho Hk k' Hk'. rewrite own_set.
  destruct (String.eqb k k') eqn:E.
  - apply String.eqb_eq in E. subst. congruence.
  - now apply Ho.
Qed.

End ObjFacts.

(** ** The in-memory loader *)

Section LoaderFacts.
Context {B : Builtins}.
Local Open Scope list_scope.

Lemma extends_refl (st : Backend.Store) : extends st st.
Proof. split; [exists []; now rewrite app_nil_r | tauto]. Qed.

Lemma extends_trans (a b c : Backend.Store) :
  extends a b -> extends b c -> extends a c.
Proof.
  intros [[e1 H1] I1] [[e2 H2] I2]. split.
  - exists (e1 ++ e2). now rewrite H2, H1, app_assoc.
  - tauto.
Qed.

Lemma loadProfile_extends (date : Date) (st : Backend.Store)
  (entry : string * list row) :
  extends st (state_of (Backend.loadProfile date st entry)).
Proof.
  destruct entry as [profileId [|sample rest]]; simpl;
    [apply extends_refl|].
  set (floatId := _ ||' VStr _).
  destruct (if isValidValue (prop sample "LATITUDE") then _ else _)
    as [lat|]; [|apply extends_refl].
  destruct (if isValidValue (prop sample "LONGITUDE") then _ else _)
    as [lon|]; [|apply extends_refl].
  destruct (negb _ || negb _); [apply extends_refl|].
  set (floats := match find _ _ with Some _ => _ | None => _ end).
  assert (Hfl : exists extra, floats = Backend.FLOAT_DATA st ++ extra).
  { unfold floats. destruct (find _ _).
    - exists []. now rewrite app_nil_r.
    - eexists. reflexivity. }
  destruct (Obj.get (Backend.MEASUREMENTS_DATA st) (ToString floatId))
    as [items | |] eqn:G; simpl; (split; [exact Hfl|]); intro Hinv.
  - apply no_inherited_own_set; [exact Hinv|].
    apply get_Own in G.
    destruct (Obj.inherited (ToString floatId)) eqn:E; [|reflexivity].
    rewrite (Hinv _ E) in G. discriminate.
  - exact Hinv.
  - apply no_inherited_own_set; [exact Hinv|].
    apply get_Missing in G. tauto.
Qed.

(** A group that is processed stores one entry for its float, with
    the measurements built from its rows. *)
Lemma loadProfile_stores_built_measurements (date : Date)
  (st st' : Backend.Store) (profileId : string) (rows : list row) :
  Backend.loadProfile date st (profileId, rows) = Done st' ->
  st' = st \/
  exists key items item,
    Obj.own (Backend.MEASUREMENTS_DATA st') key = Some (items ++ [item]) /\
    (Obj.own (Backend.MEASUREMENTS_DATA st) key = Some items \/
     Obj.get (Backend.MEASUREMENTS_DATA st) key = Obj.Missing /\
     items = []) /\
    Backend.date item = date /\
    Backend.measurements item = Backend.build_measurements rows.
Proof.
  destruct rows as [|sample rest]; simpl; [discriminate|].
  set (floatId := _ ||' VStr _).
  destruct (if isValidValue (prop sample "LATITUDE") then _ else _)
    as [lat|]; [|intros [= <-]; now left].
  destruct (if isValidValue (prop sample "LONGITUDE") then _ else _)
    as [lon|]; [|intros [= <-]; now left].
  destruct (negb _ || negb _); [intros [= <-]; now left|].
  destruct (Obj.get (Backend.MEASUREMENTS_DATA st) (ToString floatId))
    as [items | |] eqn:G; intros [= <-]; right.
  - apply get_Own in G. eexists (ToString floatId), items, _. simpl.
    rewrite own_set, String.eqb_refl.
    split; [reflexivity|]. split; [now left | split; reflexivity].
  - eexists (ToString floatId), [], _. simpl.
    rewrite own_set, String.eqb_refl.
    split; [reflexivity|]. split; [now right | split; reflexivity].
Qed.

Lemma for_each_loadProfile_extends (date : Date)
  (entries : list (string * list row)) :
  forall st,
    extends st (state_of (for_each (Backend.loadProfile date) entries st)).
Proof.
  induction entries as [|e entries IH]; intro st; simpl.
  - apply extends_refl.
  - pose proof (loadProfile_extends date st e) as He.
    destruct (Backend.loadProfile date st e) as [st'|st']; simpl in *.
    + eapply extends_trans; [exact He | apply IH].
    + exact He.
Qed.

Lemma loadFile_extends (st : Backend.Store) (f : Backend.file) :
  extends st (Backend.loadFile st f).
Proof.
  unfold Backend.loadFile. destruct (groupByProfile (snd f)).
  - apply for_each_loadProfile_extends.
  - apply extends_refl.
Qed.

Lemma load_files_extends (files : list Backend.file) :
  forall st, extends st (fold_left Backend.loadFile files st).
Proof.
  induction files as [|f files IH]; intro st; simpl.
  - apply extends_refl.
  - eapply extends_trans; [apply loadFile_extends | apply IH].
Qed.

Lemma loadCSVData_no_inherited_own (dir : list Backend.file) :
  no_inherited_own (Backend.MEASUREMENTS_DATA (Backend.loadCSVData dir)).
Proof.
  unfold Backend.loadCSVData.
  apply (load_files_extends (Backend.discover dir) Backend.empty_store).
  apply no_inherited_own_nil.
Qed.

End LoaderFacts.

(** ** Float positions in the in-memory variant *)

Section PositionFacts.
Context {B : Builtins}.
Local Open Scope list_scope.

(** C1. The in-memory loader keeps the record of a float as it was
    when the float was first registered: loading further files only
    appends records.  In scenario D the record of float 2901001 stays
    at (10.0, 70.0), the position of the first file, and the
    trajectory has two points, both at that position; the
    specification gives (10.5, 70.3). *)
Theorem first_position_kept_in_memory :
  (forall (files : list Backend.file) (st : Backend.Store),
      exists extra,
        Backend.FLOAT_DATA (fold_left Backend.loadFile files st) =
        Backend.FLOAT_DATA st ++ extra) /\
  map (fun f => (Backend.float_id f, Backend.last_position_lat f,
                 Backend.last_position_lon f))
      (Backend.FLOAT_DATA (Backend.loadCSVData Scenario.two_days)) =
  [(VStr "2901001", Fin 10.0, Fin 70.0)] /\
  Backend.api_trajectory (Backend.loadCSVData Scenario.two_days) "2901001" =
  Backend.Json
    [ {| Backend.pt_timestamp := Some 1604188800000;
         Backend.pt_latitude := Fin 10.0;
         Backend.pt_longitude := Fin 70.0 |};
      {| Backend.pt_timestamp := Some 1604275200000;
         Backend.pt_latitude := Fin 10.0;
         Backend.pt_longitude := Fin 70.0 |} ].
Proof.
  split.
  - intros files st. apply (load_files_extends files st).
  - split; vm_compute; reflexivity.
Qed.

(** The range test of [index.js] lets every latitude up to 180 pass. *)
Lemma backend_accepts_up_to_180 (x : Q) :
  (-180 <= x)%Q -> (x <= 180)%Q ->
  Backend.isValidCoordinate (VNum (Fin x)) = true.
Proof.
  intros Hlo Hhi. unfold Backend.isValidCoordinate. simpl.
  apply andb_true_iff. split; now apply Qle_bool_iff.
Qed.

(** C3. The coordinate test of the in-memory variant accepts every
    number from -180 to 180 as a latitude, 95.0 among them, and the
    group of scenario B is not skipped: a float is registered at
    latitude 95.0 and a profile entry is stored for it.  The
    specification has the test fail and the group skipped. *)
Theorem latitude_95_accepted_in_memory :
  (forall x : Q, (-180 <= x)%Q -> (x <= 180)%Q ->
                 Backend.isValidCoordinate (VNum (Fin x)) = true) /\
  Backend.isValidCoordinate (VNum (Fin 95.0)) = true /\
  map (fun f => (Backend.float_id f, Backend.last_position_lat f,
                 Backend.last_position_lon f))
      (Backend.FLOAT_DATA
         (Backend.loadCSVData
            [("20201101_prof.csv", [Scenario.polar_row])])) =
  [(VStr "2901000", Fin 95.0, Fin 70.0)] /\
  map (fun e => (fst e, map Backend.profile_id (snd e)))
      (Backend.MEASUREMENTS_DATA
         (Backend.loadCSVData
            [("20201101_prof.csv", [Scenario.polar_row])])) =
  [("2901000", ["2901000_0"%string])].
Proof.
  split; [exact backend_accepts_up_to_180|].
  split; [reflexivity|]. split; vm_compute; reflexivity.
Qed.

End PositionFacts.

(** ** Queries on identifiers that were not ingested *)

Section QueryFacts.
Context {B : Builtins}.
Local Open Scope list_scope.

Lemma insert_index_In {A : Type} (x y : string * A) (l : Obj.dict A) :
  In y (Obj.insert_index x l) <-> y = x \/ In y l.
Proof.
  induction l as [|z l IH]; simpl.
  - intuition congruence.
  - destruct (_ <=? _)%N; simpl; rewrite ?IH; intuition congruence.
Qed.

Lemma sorted_In {A : Type} (l : Obj.dict A) (y : string * A) :
  forall acc,
    In y (fold_left (fun acc x => Obj.insert_index x acc) l acc) <->
    In y l \/ In y acc.
Proof.
  induction l as [|x l IH]; intro acc; simpl.
  - tauto.
  - rewrite IH, insert_index_In. intuition congruence.
Qed.

(** [Object.entries] enumerates the own properties, each once. *)
Lemma entries_In {A : Type} (o : Obj.dict A) (y : string * A) :
  In y (Obj.entries o) <-> In y o.
Proof.
  unfold Obj.entries. rewrite in_app_iff, sorted_In, !filter_In. simpl.
  destruct (Obj.is_index (fst y)); simpl; intuition congruence.
Qed.

Lemma find_measurements_none
  (floats : list (string * list Backend.ProfileEntry)) (profileId : string) :
  (forall k items p, In (k, items) floats -> In p items ->
                     Backend.profile_id p <> profileId) ->
  Backend.find_measurements floats profileId = [].
Proof.
  induction floats as [|[k items] floats IH]; intro Hno; simpl.
  - reflexivity.
  - destruct (find _ items) as [p|] eqn:F.
    + apply find_some in F. destruct F as [Hin Heq].
      apply String.eqb_eq in Heq. exfalso.
      apply (Hno k items p); simpl; auto.
    + apply IH. intros k' items' p Hin. apply (Hno k' items' p). now right.
Qed.

(** X16. An identifier that is neither a key of [MEASUREMENTS_DATA] nor a
    name inherited from [Object.prototype] gets empty sequences. *)
Lemma unknown_plain_identifier (st : Backend.Store) (floatId : string) :
  Obj.own (Backend.MEASUREMENTS_DATA st) floatId = None ->
  Obj.inherited floatId = false ->
  Backend.api_profiles st floatId = Backend.Json [] /\
  Backend.api_trajectory st floatId = Backend.Json [].
Proof.
  intros Hown Hinh. unfold Backend.api_profiles, Backend.api_trajectory.
  assert (G : Obj.get (Backend.MEASUREMENTS_DATA st) floatId = Obj.Missing)
    by (apply get_Missing; tauto).
  rewrite G. split; reflexivity.
Qed.

Lemma unknown_profile_identifier (st : Backend.Store) (profileId : string) :
  (forall k items p,
      In (k, items) (Backend.MEASUREMENTS_DATA st) -> In p items ->
      Backend.profile_id p <> profileId) ->
  Backend.api_measurements st profileId = Backend.Json [].
Proof.
  intro Hno. unfold Backend.api_measurements. f_equal.
  apply find_measurements_none. intros k items p Hin.
  apply (Hno k items p). now apply entries_In.
Qed.

(** An identifier that is a name inherited from [Object.prototype]
    and not a key of [MEASUREMENTS_DATA] makes both per-float handlers
    throw. *)
Lemma inherited_identifier_throws (st : Backend.Store) (floatId : string) :
  Obj.own (Backend.MEASUREMENTS_DATA st) floatId = None ->
  Obj.inherited floatId = true ->
  Backend.api_profiles st floatId = Backend.ServerError /\
  Backend.api_trajectory st floatId = Backend.ServerError.
Proof.
  intros Hown Hinh. unfold Backend.api_profiles, Backend.api_trajectory.
  assert (G : Obj.get (Backend.MEASUREMENTS_DATA st) floatId = Obj.Inherited)
    by (apply get_Inherited; tauto).
  rewrite G. split; reflexivity.
Qed.

(** C8. Whatever was ingested, the identifier [constructor] (like
    every name inherited from [Object.prototype]) is not among the
    floats of [MEASUREMENTS_DATA], and the profile and trajectory
    queries on it end in an error instead of an empty sequence.  The
    measurement query returns the empty sequence for every profile
    identifier that was not ingested. *)
Theorem inherited_name_query_throws (dir : list Backend.file) :
  Forall (fun floatId =>
            Obj.own (Backend.MEASUREMENTS_DATA (Backend.loadCSVData dir))
                    floatId = None /\
            Backend.api_profiles (Backend.loadCSVData dir) floatId =
            Backend.ServerError /\
            Backend.api_trajectory (Backend.loadCSVData dir) floatId =
            Backend.ServerError)
         ("constructor" :: Obj.prototype_keys) /\
  (forall profileId,
      (forall k items p,
          In (k, items) (Backend.MEASUREMENTS_DATA (Backend.loadCSVData dir)) ->
          In p items -> Backend.profile_id p <> profileId) ->
      Backend.api_measurements (Backend.loadCSVData dir) profileId =
      Backend.Json []).
Proof.
  split.
  - apply Forall_forall. intros k Hk.
    assert (Hinh : Obj.inherited k = true).
    { destruct Hk as [<- | Hk]; [reflexivity|].
      unfold Obj.inherited. apply existsb_exists. exists k.
      split; [exact Hk | apply String.eqb_refl]. }
    pose proof (loadCSVData_no_inherited_own dir k Hinh) as Hown.
    split; [exact Hown|].
    now apply inherited_identifier_throws.
  - intro profileId. apply unknown_profile_identifier.
Qed.

End QueryFacts.

(** ** The export document *)

Section ExportFacts.
Context {B : Builtins}.
Local Open Scope list_scope.

Lemma split_without_separator (c : ascii) (s : string) :
  contains c s = false -> Str.split c s = [s].
Proof.
  induction s as [|a s IH]; simpl; [reflexivity|].
  intro H. apply orb_false_iff in H. destruct H as [Ha Hs].
  rewrite Ha, (IH Hs). reflexivity.
Qed.

Lemma split_at_separator (c : ascii) (s1 s2 : string) :
  contains c s1 = false ->
  Str.split c (s1 ++ String c s2)%string = s1 :: Str.split c s2.
Proof.
  induction s1 as [|a s1 IH]; simpl.
  - intros _. now rewrite Ascii.eqb_refl.
  - intro H. apply orb_false_iff in H. destruct H as [Ha Hs].
    rewrite Ha, (IH Hs). reflexivity.
Qed.

Lemma contains_app (c : ascii) (s1 s2 : string) :
  contains c (s1 ++ s2)%string = contains c s1 || contains c s2.
Proof.
  induction s1 as [|a s1 IH]; simpl; [reflexivity|].
  now rewrite IH, orb_assoc.
Qed.

Lemma append_associative (s1 s2 s3 : string) :
  ((s1 ++ s2) ++ s3 = s1 ++ s2 ++ s3)%string.
Proof.
  induction s1 as [|a s1 IH]; simpl; [reflexivity|]. now rewrite IH.
Qed.

(** C2. The export document does not depend on what was ingested: it
    is the header line followed by two fixed rows for the requested
    identifier.  After loading the first file of scenario D the float
    2901001 holds one measurement, and its export has two data rows,
    neither of them that measurement; the specification gives one row
    per measurement of the float. *)
Theorem export_rows_are_fixed (st : Backend.Store) (floatId : string) :
  Backend.api_export_csv st floatId =
  Backend.api_export_csv Backend.empty_store floatId /\
  (contains (ascii_of_nat 10) floatId = false ->
   lines (Backend.api_export_csv st floatId) =
   [ Backend.csv_header;
     (floatId ++ ",1,0,28.1,35.2")%string;
     (floatId ++ ",1,50,27.6,35.1")%string ]) /\
  map (fun m => (Backend.pressure m, Backend.temperature m,
                 Backend.salinity m))
      (measurements_of
         (Backend.loadCSVData [("20201101_prof.csv", [Scenario.day1_row])])
         "2901001") =
  [(Fin 5.0, Fin 28.1, None)] /\
  lines (Backend.api_export_csv
           (Backend.loadCSVData [("20201101_prof.csv", [Scenario.day1_row])])
           "2901001") =
  [ Backend.csv_header; "2901001,1,0,28.1,35.2"%string;
    "2901001,1,50,27.6,35.1"%string ].
Proof.
  split; [reflexivity|]. split.
  - intro Hnl. unfold lines, Backend.api_export_csv, Backend.newline.
    set (nl := ascii_of_nat 10) in *.
    change (Str.split nl
              (Backend.csv_header ++
               String nl (floatId ++ ",1,0,28.1,35.2" ++
                          String nl (floatId ++ ",1,50,27.6,35.1")))%string
            = [ Backend.csv_header; (floatId ++ ",1,0,28.1,35.2")%string;
                (floatId ++ ",1,50,27.6,35.1")%string ]).
    rewrite split_at_separator by reflexivity.
    rewrite <- append_associative.
    rewrite split_at_separator
      by (rewrite contains_app, Hnl; reflexivity).
    rewrite split_without_separator
      by (rewrite contains_app, Hnl; reflexivity).
    reflexivity.
  - split; vm_compute; reflexivity.
Qed.

End ExportFacts.

(** ** The database variant *)

Section ProcessorFacts.
Context {B : Builtins}.
Local Open Scope list_scope.

Lemma processor_coordinate_range (v : value) :
  Processor.isValidCoordinate v = true <-> within (-90) 90 (Number v).
Proof.
  unfold Processor.isValidCoordinate. rewrite <- within_checks.
  destruct (Number v); simpl; rewrite ?andb_true_iff; intuition congruence.
Qed.

(** A pair the database variant accepts is a physically valid
    position. *)
Lemma processor_accepts_only_valid (lat lon : value) :
  Processor.unusable lat lon = false ->
  within (-90) 90 (Number lat) /\ within (-180) 180 (Number lon).
Proof.
  unfold Processor.unusable. rewrite !orb_false_iff, !negb_false_iff.
  intros [[[_ _] Hlat] Hlon].
  apply processor_coordinate_range in Hlat, Hlon. split; [exact Hlat|].
  destruct Hlon as (x & Hx & Hlo & Hhi). exists x.
  split; [exact Hx|]. split; lra.
Qed.

Lemma processor_rejects_above_90 (x : Q) :
  (90 < x)%Q -> Processor.isValidCoordinate (VNum (Fin x)) = false.
Proof.
  intro H. apply not_true_iff_false. rewrite processor_coordinate_range.
  intros (y & [= <-] & _ & Hhi). lra.
Qed.

Lemma truthy_or_else (a b : value) : truthy a = true -> a ||' b = a.
Proof. unfold or_else. now intros ->. Qed.


Lemma truthy_above_90 (x : Q) : (90 < x)%Q -> truthy (VNum (Fin x)) = true.
Proof.
  intro H. simpl. apply negb_true_iff. apply not_true_iff_false.
  rewrite Qis_zero_iff. lra.
Qed.

(** X21. A group whose representative row lies north of 90 degrees is
    skipped by the database variant, with or without a position known
    for the float. *)
Lemma polar_group_skipped_by_processor (md : Processor.Metadata)
  (db : Processor.DB) (profileId : string) (sample : row) (rest : list row)
  (x : Q) :
  prop sample "LATITUDE" = VNum (Fin x) -> (90 < x)%Q ->
  Processor.processProfileData md db (profileId, sample :: rest) = db.
Proof.
  intros Hlat Hx. unfold Processor.processProfileData.
  rewrite Hlat.
  rewrite !(truthy_or_else (VNum (Fin x))) by now apply truthy_above_90.
  set (lon := _ ||' VNull). set (floatId := _ ||' VStr profileId).
  assert (Hbad : forall lon', Processor.unusable (VNum (Fin x)) lon' = true).
  { intro lon'. unfold Processor.unusable.
    rewrite (processor_rejects_above_90 x Hx). simpl.
    now rewrite orb_true_r. }
  unfold Processor.resolve_position. rewrite Hbad.
  destruct (Obj.get md (ToString floatId)) as [meta| |].
  - destruct (rev (Processor.positions meta)) as [|lastPosition ?].
    + now rewrite Hbad.
    + rewrite (truthy_or_else (VNum (Fin x)))
        by now apply truthy_above_90.
      now rewrite Hbad.
  - reflexivity.
  - now rewrite Hbad.
Qed.

(** X19. [upsertFloat] leaves the float at the position it is given:
    last write wins in the database variant. *)
Lemma upsertFloat_last_write_wins (db : Processor.DB) (floatId : string)
  (lat lon : value) :
  (exists f, In f (Processor.argo_floats
                     (Processor.upsertFloat db floatId lat lon)) /\
             Processor.float_id f = floatId) /\
  (forall f, In f (Processor.argo_floats
                     (Processor.upsertFloat db floatId lat lon)) ->
             Processor.float_id f = floatId ->
             Processor.last_position_lat f = lat /\
             Processor.last_position_lon f = lon).
Proof.
  unfold Processor.upsertFloat. simpl.
  destruct (existsb _ (Processor.argo_floats db)) eqn:E.
  - split.
    + apply existsb_exists in E. destruct E as (f & Hin & Heq).
      eexists. split.
      * apply in_map_iff. exists f. split; [reflexivity | exact Hin].
      * rewrite Heq. simpl. now apply String.eqb_eq.
    + intros f Hin Hid. apply in_map_iff in Hin.
      destruct Hin as (g & <- & _).
      destruct (String.eqb (Processor.float_id g) floatId) eqn:Eg.
      * simpl. tauto.
      * apply String.eqb_neq in Eg. contradiction.
  - split.
    + eexists. split; [apply in_or_app; right; left; reflexivity|].
      reflexivity.
    + intros f Hin Hid. apply in_app_or in Hin.
      destruct Hin as [Hin | [<- | []]]; [|simpl; tauto].
      exfalso. assert (Hex : existsb
        (fun f => String.eqb (Processor.float_id f) floatId)
        (Processor.argo_floats db) = true).
      { apply existsb_exists. exists f. split; [exact Hin|].
        now apply String.eqb_eq. }
      congruence.
Qed.

(** Scenario D in the database variant: the float ends at the second
    position and two profiles are stored. *)
Lemma scenario_D_in_database :
  map (fun f => (Processor.float_id f, Processor.last_position_lat f,
                 Processor.last_position_lon f))
      (Processor.argo_floats
         (Processor.processAllFiles Processor.empty_db Scenario.two_days)) =
  [("2901001"%string, VNum (Fin 10.5), VNum (Fin 70.3))] /\
  map (fun p => (Processor.latitude p, Processor.longitude p))
      (Processor.argo_profiles
         (Processor.processAllFiles Processor.empty_db Scenario.two_days)) =
  [(VNum (Fin 10.0), VNum (Fin 70.0)); (VNum (Fin 10.5), VNum (Fin 70.3))].
Proof. split; vm_compute; reflexivity. Qed.

Lemma insertMeasurements_keeps (db : Processor.DB) (pid : nat)
  (rows : list row) :
  Processor.argo_floats (Processor.insertMeasurements db pid rows) =
  Processor.argo_floats db /\
  Processor.argo_profiles (Processor.insertMeasurements db pid rows) =
  Processor.argo_profiles db.
Proof.
  unfold Processor.insertMeasurements.
  destruct (0 <? _)%nat; split; reflexivity.
Qed.

(** A group that is stored adds to [argo_measurements] the valid
    measurements of its rows, under the key of its new profile. *)
Lemma processProfileData_measurements (md : Processor.Metadata)
  (db : Processor.DB) (profileId : string) (rows : list row) :
  Processor.processProfileData md db (profileId, rows) = db \/
  Processor.argo_measurements
    (Processor.processProfileData md db (profileId, rows)) =
  Processor.argo_measurements db ++
  Processor.valid_measurements (S (List.length (Processor.argo_profiles db)))
                               [] rows.
Proof.
  unfold Processor.processProfileData.
  destruct rows as [|sample rest]; [now left|].
  destruct (Processor.resolve_position _ _ _ _) as [[lat lon]|]; [|now left].
  destruct (Processor.unusable lat lon); [now left|].
  right. cbv zeta. unfold Processor.insertProfile.
  rewrite insertMeasurements_appends. reflexivity.
Qed.




End ProcessorFacts.

(** ** The date decoder *)

Section DateFacts.
Context {B : Builtins}.

Lemma days_from_civil_epoch : days_from_civil 1970 1 1 = 0.
Proof. reflexivity. Qed.

Lemma days_from_civil_leap_day :
  days_from_civil 2020 3 1 - days_from_civil 2020 2 28 = 2 /\
  days_from_civil 2021 3 1 - days_from_civil 2021 2 28 = 1.
Proof. split; reflexivity. Qed.

Lemma default_date_value : default_date = Some 1604188800000.
Proof. reflexivity. Qed.

Lemma default_date_is_2020_11_01 :
  default_date = Some (days_from_civil 2020 11 1 * msPerDay).
Proof. reflexivity. Qed.

Lemma argoEpoch_is_1950_01_01 :
  Processor.argoEpoch_time = days_from_civil 1950 1 1 * msPerDay.
Proof. reflexivity. Qed.

Lemma getTime_isNaN (d : Date) : isNaN (getTime d) = true <-> d = None.
Proof. destruct d; simpl; split; congruence. Qed.

Lemma TimeClip_None (q : Q) :
  TimeClip (Fin q) = None <->
  (q < -8640000000000000)%Q \/ (8640000000000000 < q)%Q.
Proof.
  simpl.
  destruct (Qle_bool (-8640000000000000) q) eqn:E1;
    destruct (Qle_bool q 8640000000000000) eqn:E2; simpl.
  - apply Qle_bool_iff in E1, E2. split; [discriminate|]. intros [H|H]; lra.
  - split; [intros _; right | reflexivity].
    apply Qnot_le_lt. intro H. apply Qle_bool_iff in H. congruence.
  - split; [intros _; left | reflexivity].
    apply Qnot_le_lt. intro H. apply Qle_bool_iff in H. congruence.
  - split; [intros _; left | reflexivity].
    apply Qnot_le_lt. intro H. apply Qle_bool_iff in H. congruence.
Qed.

(** X27. A number in the range of time values is taken as a count of
    milliseconds since 1970-01-01, not of days since 1950-01-01. *)
Lemma extractDate_number_is_milliseconds (r : row) (d : Q) :
  date_source r = VNum (Fin d) -> ~ (d == 0)%Q ->
  (-8640000000000000 <= d)%Q -> (d <= 8640000000000000)%Q ->
  Processor.extractDate r = Some (Qtrunc d).
Proof.
  intros Hsrc Hnz Hlo Hhi. unfold Processor.extractDate.
  fold (date_source r). rewrite Hsrc.
  assert (Ht : truthy (VNum (Fin d)) = true).
  { simpl. apply negb_true_iff, not_true_iff_false.
    now rewrite Qis_zero_iff. }
  rewrite Ht. simpl negb. cbv iota.
  assert (Hclip : new_Date (VNum (Fin d)) = Some (Qtrunc d)).
  { simpl. apply Qle_bool_iff in Hlo, Hhi. now rewrite Hlo, Hhi. }
  rewrite Hclip. reflexivity.
Qed.

(** X28. The Julian-day branch is only reached by numbers outside the
    range of time values, and shifting such a number by the epoch
    leaves it outside: the branch never yields a date. *)
Lemma julian_branch_never_decodes (r : row) (n : num) :
  date_source r = VNum n -> TimeClip n = None ->
  Processor.extractDate r = default_date.
Proof.
  intros Hsrc Hclip. unfold Processor.extractDate.
  fold (date_source r). rewrite Hsrc.
  destruct (truthy (VNum n)); [|reflexivity]. simpl negb. cbv iota.
  change (new_Date (VNum n)) with (TimeClip n). rewrite Hclip.
  simpl getTime. simpl isNaN. cbv iota.
  destruct n as [| | |q]; try reflexivity.
  apply TimeClip_None in Hclip.
  cbn [num_mul num_add].
  match goal with
  | |- context [TimeClip (Fin ?e)] =>
      assert (Hout : TimeClip (Fin e) = None)
  end.
  { apply TimeClip_None. unfold Processor.argoEpoch_time.
    change (inject_Z (-631152000000)) with (-631152000000)%Q.
    destruct Hclip as [H|H]; [left|right]; lra. }
  rewrite Hout. reflexivity.
Qed.

(** C4, as amended. [extractDate] is total and always returns a valid
    date.  When no date column holds a truthy value, and when the
    value is a string that does not parse, the result is the fixed
    default 2020-11-01T00:00:00Z; a string that parses decodes to the
    parsed date.  The name of the source file plays no part. *)
Theorem extractDate_total_with_default (r : row) :
  (exists t, Processor.extractDate r = Some t) /\
  (truthy (date_source r) = false ->
   Processor.extractDate r = Some (days_from_civil 2020 11 1 * msPerDay)) /\
  (forall s, date_source r = VStr s -> Date_parse s = None ->
             Processor.extractDate r =
             Some (days_from_civil 2020 11 1 * msPerDay)) /\
  (forall s t, date_source r = VStr s -> s <> "" -> Date_parse s = Some t ->
               Processor.extractDate r = Some t).
Proof.
  split; [|split; [|split]].
  - unfold Processor.extractDate. fold (date_source r).
    destruct (truthy (date_source r)); simpl negb; cbv iota;
      [|eexists; reflexivity].
    set (date := match date_source r with VNum n => _ | _ => _ end).
    destruct date as [t|]; simpl; eexists; reflexivity.
  - intro Hf. unfold Processor.extractDate. fold (date_source r).
    now rewrite Hf.
  - intros s Hsrc Hparse. unfold Processor.extractDate.
    fold (date_source r). rewrite Hsrc.
    destruct (truthy (VStr s)); [|reflexivity]. simpl negb. cbv iota.
    change (new_Date (VStr s)) with (Date_parse s). now rewrite Hparse.
  - intros s t Hsrc Hne Hparse. unfold Processor.extractDate.
    fold (date_source r). rewrite Hsrc.
    assert (Ht : truthy (VStr s) = true).
    { simpl. apply negb_true_iff. now apply String.eqb_neq. }
    rewrite Ht. simpl negb. cbv iota.
    change (new_Date (VStr s)) with (Date_parse s). now rewrite Hparse.
Qed.

End DateFacts.

(** ** Grouping the rows of a file *)

Section GroupingFacts.
Context {B : Builtins}.
Local Open Scope list_scope.

Lemma set_keys {A : Type} (o : Obj.dict A) (k : string) (a : A) :
  map fst (Obj.set o k a) =
  match Obj.own o k with
  | Some _ => map fst o
  | None => map fst o ++ [k]
  end.
Proof.
  induction o as [|[k0 a0] o IH]; simpl; [reflexivity|].
  destruct (String.eqb k0 k) eqn:E; simpl.
  - reflexivity.
  - rewrite IH. now destruct (Obj.own o k).
Qed.

Lemma own_None_keys {A : Type} (o : Obj.dict A) (k : string) :
  Obj.own o k = None <-> ~ In k (map fst o).
Proof.
  induction o as [|[k0 a0] o IH]; simpl; [tauto|].
  destruct (String.eqb k0 k) eqn:E.
  - apply String.eqb_eq in E. split; [discriminate | intro H; tauto].
  - apply String.eqb_neq in E. rewrite IH. tauto.
Qed.

Lemma set_NoDup {A : Type} (o : Obj.dict A) (k : string) (a : A) :
  NoDup (map fst o) -> NoDup (map fst (Obj.set o k a)).
Proof.
  intro H. rewrite set_keys. destruct (Obj.own o k) eqn:E; [exact H|].
  apply own_None_keys in E.
  apply NoDup_rev in H. rewrite <- (rev_involutive (_ ++ _)).
  apply NoDup_rev. rewrite rev_app_distr. simpl. constructor; [|exact H].
  now rewrite <- in_rev.
Qed.

Lemma own_In {A : Type} (o : Obj.dict A) (k : string) (a : A) :
  NoDup (map fst o) -> (In (k, a) o <-> Obj.own o k = Some a).
Proof.
  induction o as [|[k0 a0] o IH]; simpl; intro H.
  - split; [tauto | discriminate].
  - inversion H as [|? ? Hnot Hnd]; subst.
    destruct (String.eqb k0 k) eqn:E.
    + apply String.eqb_eq in E. subst k0. split.
      * intros [[= ->] | Hin]; [reflexivity|].
        exfalso. apply Hnot. apply in_map_iff. now exists (k, a).
      * intros [= ->]. now left.
    + apply String.eqb_neq in E. rewrite <- (IH Hnd). split.
      * intros [[= ? ?] | Hin]; [contradiction | exact Hin].
      * intro Hin. now right.
Qed.

Lemma rows_of_key_app (k : string) (l1 l2 : list row) :
  rows_of_key k (l1 ++ l2) = rows_of_key k l1 ++ rows_of_key k l2.
Proof. apply filter_app. Qed.

Lemma group_row_step (groups : Obj.dict (list row)) (seen : list row)
  (r : row) :
  grouped groups seen ->
  match group_row groups r with
  | Some groups' => grouped groups' (seen ++ [r])
  | None => Obj.inherited (profile_key r) = true
  end.
Proof.
  intros (Hnd & Hinh & Hown). unfold group_row. fold (profile_key r).
  set (k0 := profile_key r). unfold Obj.get.
  pose proof (Hown k0) as Hk0.
  destruct (Obj.own groups k0) as [rows|] eqn:E.
  - (* the key is there: push *)
    assert (Hr : Obj.inherited k0 = false).
    { destruct (rows_of_key k0 seen) as [|r' l] eqn:F; [discriminate|].
      assert (Hin : In r' (rows_of_key k0 seen)) by (rewrite F; now left).
      apply filter_In in Hin. destruct Hin as [Hin Heq].
      apply String.eqb_eq in Heq. rewrite <- Heq. now apply Hinh. }
    split; [now apply set_NoDup|]. split.
    + intros r' Hin. apply in_app_or in Hin.
      destruct Hin as [Hin | [<- | []]]; [now apply Hinh | exact Hr].
    + intro k. rewrite own_set, rows_of_key_app.
      unfold rows_of_key at 2. simpl. fold k0.
      destruct (String.eqb k0 k) eqn:Ek.
      * apply String.eqb_eq in Ek. subst k.
        destruct (rows_of_key k0 seen) as [|r' l]; [discriminate|].
        injection Hk0 as ->. reflexivity.
      * rewrite app_nil_r. apply Hown.
  - destruct (Obj.inherited k0) eqn:Ei; [reflexivity|].
    split; [now apply set_NoDup|]. split.
    + intros r' Hin. apply in_app_or in Hin.
      destruct Hin as [Hin | [<- | []]]; [now apply Hinh | exact Ei].
    + intro k. rewrite own_set, rows_of_key_app.
      unfold rows_of_key at 2. simpl. fold k0.
      destruct (String.eqb k0 k) eqn:Ek.
      * apply String.eqb_eq in Ek. subst k.
        destruct (rows_of_key k0 seen); [reflexivity | discriminate].
      * rewrite app_nil_r. apply Hown.
Qed.

Lemma group_rows_spec (data : list row) :
  forall groups seen,
    grouped groups seen ->
    match group_rows groups data with
    | Some groups' => grouped groups' (seen ++ data)
    | None => exists r, In r data /\ Obj.inherited (profile_key r) = true
    end.
Proof.
  induction data as [|r data IH]; intros groups seen Hg; simpl.
  - now rewrite app_nil_r.
  - pose proof (group_row_step groups seen r Hg) as Hstep.
    destruct (group_row groups r) as [groups'|].
    + specialize (IH groups' (seen ++ [r]) Hstep).
      rewrite <- app_assoc in IH. simpl in IH.
      destruct (group_rows groups' data).
      * exact IH.
      * destruct IH as (r' & Hin & Hr'). exists r'.
        split; [now right | exact Hr'].
    + exists r. split; [now left | exact Hstep].
Qed.

Lemma groupByProfile_spec (data : list row) :
  match groupByProfile data with
  | Some groups => grouped groups data
  | None => exists r, In r data /\ Obj.inherited (profile_key r) = true
  end.
Proof.
  unfold groupByProfile.
  apply (group_rows_spec data [] []).
  split; [constructor|]. split; [intros r []|]. reflexivity.
Qed.

(** X1. [groupByProfile] partitions the rows of a file by their profile
    key: it files under each key exactly the rows with that key, in
    their order in the file, no group is empty, and it throws exactly
    when a row has a key that is a name inherited from
    [Object.prototype]. *)
Theorem groupByProfile_partitions (data : list row) :
  match groupByProfile data with
  | Some groups =>
      (forall r, In r data -> Obj.inherited (profile_key r) = false) /\
      (forall k rows,
          In (k, rows) (Obj.entries groups) <->
          rows = rows_of_key k data /\ rows <> [])
  | None => exists r, In r data /\ Obj.inherited (profile_key r) = true
  end.
Proof.
  pose proof (groupByProfile_spec data) as H.
  destruct (groupByProfile data) as [groups|]; [|exact H].
  destruct H as (Hnd & Hinh & Hown). split; [exact Hinh|].
  intros k rows. rewrite entries_In, (own_In groups k rows Hnd), Hown.
  destruct (rows_of_key k data) as [|r l].
  - split; [discriminate | intros [-> Hne]; now elim Hne].
  - split; [intros [= <-]; split; [reflexivity | discriminate]|].
    now intros [-> _].
Qed.

End GroupingFacts.

(** ** Files: their names, their order, and a file that cannot be
    grouped *)

Section FileFacts.
Context {B : Builtins}.
Local Open Scope list_scope.

Lemma groupByProfile_throws (data : list row) :
  (exists r, In r data /\ Obj.inherited (profile_key r) = true) ->
  groupByProfile data = None.
Proof.
  intros (r & Hin & Hr). pose proof (groupByProfile_spec data) as H.
  destruct (groupByProfile data) as [groups|]; [|reflexivity].
  destruct H as (_ & Hinh & _). rewrite (Hinh r Hin) in Hr. discriminate.
Qed.

(** X2. A single row whose profile key is a name inherited from
    [Object.prototype] makes its whole file contribute nothing, in
    the in-memory loader, in the metadata pass and in the database
    pass. *)
Theorem inherited_profile_key_drops_file (name : string) (rows : list row)
  (st : Backend.Store) (md : Processor.Metadata) (db : Processor.DB)
  (files : list Processor.file) :
  (exists r, In r rows /\ Obj.inherited (profile_key r) = true) ->
  Backend.loadFile st (name, rows) = st /\
  Processor.processCsvFile md db (name, rows) = db /\
  Processor.extractFloatMetadata (files ++ [(name, rows)]) =
  Processor.extractFloatMetadata files.
Proof.
  intro Hbad. apply groupByProfile_throws in Hbad.
  unfold Backend.loadFile, Processor.processCsvFile,
    Processor.extractFloatMetadata.
  rewrite fold_left_app. simpl. rewrite Hbad. repeat split.
Qed.

Lemma substring_app_left (d x : string) :
  substring 0 (String.length d) (d ++ x) = d.
Proof.
  induction d as [|c d IH]; simpl.
  - now destruct x.
  - now rewrite IH.
Qed.

Lemma substring_app_right (d x : string) :
  substring (String.length d) (String.length x) (d ++ x) = x.
Proof.
  induction d as [|c d IH]; simpl; [|exact IH].
  induction x as [|a x IHx]; simpl; [reflexivity|]. now rewrite IHx.
Qed.

Lemma length_append (a b : string) :
  String.length (a ++ b) = (String.length a + String.length b)%nat.
Proof. induction a; simpl; congruence. Qed.

Lemma all_digits_app (a b : string) :
  Str.all_digits (a ++ b) = Str.all_digits a && Str.all_digits b.
Proof.
  induction a as [|c a IH]; simpl; [reflexivity|].
  now rewrite IH, andb_assoc.
Qed.

Lemma match_prof_csv_dated (d : string) :
  String.length d = 8%nat -> Str.all_digits d = true ->
  match_prof_csv (d ++ "_prof.csv") = Some d.
Proof.
  intros Hlen Hdig.
  destruct d as [|c d']; [discriminate|].
  remember (String c d') as d eqn:Hd.
  assert (Hs : exists c0 s0, (d ++ "_prof.csv")%string = String c0 s0).
  { subst d. simpl. eauto. }
  destruct Hs as (c0 & s0 & Hs).
  unfold match_prof_csv. rewrite Hs. fold match_prof_csv. rewrite <- Hs.
  cbv zeta.
  replace (substring 0 8 (d ++ "_prof.csv")) with d
    by (rewrite <- Hlen; symmetry; apply substring_app_left).
  rewrite Hlen, Nat.eqb_refl, Hdig. simpl andb.
  rewrite length_append, Hlen.
  replace (8 + String.length "_prof.csv" - 8)%nat
    with (String.length "_prof.csv") by reflexivity.
  replace (substring 8 (String.length "_prof.csv") (d ++ "_prof.csv"))
    with "_prof.csv"%string
    by (rewrite <- Hlen; symmetry; apply substring_app_right).
  reflexivity.
Qed.

(** X3. The date of a daily file is read off its name: for the name
    [YYYYMMDD_prof.csv] with a month from 01 to 12 and a day from 01
    to 31, [extractDateFromFilename] is midnight UTC of that day. *)
Theorem extractDateFromFilename_dated (y m d : string) :
  String.length y = 4%nat -> String.length m = 2%nat ->
  String.length d = 2%nat ->
  Str.all_digits y = true -> Str.all_digits m = true ->
  Str.all_digits d = true ->
  1 <= Z.of_N (Str.digits_val m) <= 12 ->
  1 <= Z.of_N (Str.digits_val d) <= 31 ->
  extractDateFromFilename (y ++ m ++ d ++ "_prof.csv")%string =
  Some (days_from_civil (Z.of_N (Str.digits_val y))
                        (Z.of_N (Str.digits_val m))
                        (Z.of_N (Str.digits_val d)) * msPerDay).
Proof.
  intros Ly Lm Ld Hy Hm Hd Rm Rd.
  unfold extractDateFromFilename.
  rewrite <- (append_associative m d), <- (append_associative y (m ++ d)).
  rewrite match_prof_csv_dated.
  2:{ rewrite !length_append, Ly, Lm, Ld. reflexivity. }
  2:{ rewrite !all_digits_app, Hy, Hm, Hd. reflexivity. }
  assert (E : (substring 0 4 (y ++ m ++ d) ++ "-" ++
               substring 4 2 (y ++ m ++ d) ++ "-" ++
               substring 6 2 (y ++ m ++ d))%string
              = (y ++ "-" ++ m ++ "-" ++ d)%string).
  { destruct y as [|y1 [|y2 [|y3 [|y4 [|]]]]]; try discriminate.
    destruct m as [|m1 [|m2 [|]]]; try discriminate.
    destruct d as [|d1 [|d2 [|]]]; try discriminate. reflexivity. }
  rewrite E. unfold Date_parse, parse_date_only.
  assert (P : (substring 0 4 (y ++ "-" ++ m ++ "-" ++ d) = y /\
               substring 5 2 (y ++ "-" ++ m ++ "-" ++ d) = m /\
               substring 8 2 (y ++ "-" ++ m ++ "-" ++ d) = d /\
               substring 4 1 (y ++ "-" ++ m ++ "-" ++ d) = "-" /\
               substring 7 1 (y ++ "-" ++ m ++ "-" ++ d) = "-" /\
               String.length (y ++ "-" ++ m ++ "-" ++ d) = 10%nat)%string).
  { destruct y as [|y1 [|y2 [|y3 [|y4 [|]]]]]; try discriminate.
    destruct m as [|m1 [|m2 [|]]]; try discriminate.
    destruct d as [|d1 [|d2 [|]]]; try discriminate.
    repeat split; reflexivity. }
  destruct P as (-> & -> & -> & -> & -> & ->).
  rewrite Hy, Hm, Hd. simpl andb. cbv zeta.
  destruct Rm as [Rm1 Rm2]. destruct Rd as [Rd1 Rd2].
  apply Z.leb_le in Rm1, Rm2, Rd1, Rd2.
  rewrite Rm1, Rm2, Rd1, Rd2. reflexivity.
Qed.

Lemma substring_length_le (n m : nat) (s : string) :
  (String.length (substring n m s) <= m)%nat.
Proof.
  revert n m. induction s as [|c s IH]; intros [|n] [|m]; simpl;
    try lia; try apply IH.
  specialize (IH 0%nat m). lia.
Qed.

Lemma prefix_length (p s : string) :
  String.prefix p s = true -> (String.length p <= String.length s)%nat.
Proof.
  revert s. induction p as [|a p IH]; intros [|b s]; simpl;
    try lia; try discriminate.
  destruct (Ascii.ascii_dec a b); [|discriminate].
  intro H. specialize (IH s H). lia.
Qed.

(** A name of fewer than 17 characters holds no dated file name. *)
Lemma match_prof_csv_short (s : string) :
  (String.length s < 17)%nat -> match_prof_csv s = None.
Proof.
  induction s as [|c s IH]; intro Hlen; [reflexivity|].
  unfold match_prof_csv. fold match_prof_csv. cbv zeta.
  destruct (String.prefix "_prof.csv"
              (substring 8 (String.length (String c s) - 8) (String c s)))
    eqn:P.
  - apply prefix_length in P.
    pose proof (substring_length_le 8 (String.length (String c s) - 8)
                  (String c s)) as Hle.
    change (String.length "_prof.csv") with 9%nat in P. lia.
  - rewrite andb_false_r. apply IH. simpl in Hlen. lia.
Qed.

End FileFacts.

Section OrderFacts.
Local Open Scope list_scope.

Lemma insert_sorted_In {A : Type} (key : A -> string) (x y : A) (l : list A) :
  In y (Str.insert_sorted key x l) <-> y = x \/ In y l.
Proof.
  induction l as [|z l IH]; simpl.
  - intuition congruence.
  - destruct (String.leb (key z) (key x)); simpl; rewrite ?IH;
      intuition congruence.
Qed.

Lemma insert_sorted_length {A : Type} (key : A -> string) (x : A)
  (l : list A) :
  List.length (Str.insert_sorted key x l) = S (List.length l).
Proof.
  induction l as [|z l IH]; simpl; [reflexivity|].
  destruct (String.leb (key z) (key x)); simpl; congruence.
Qed.

Lemma insert_sorted_ascending {A : Type} (key : A -> string) (x : A)
  (l : list A) :
  ascending key l -> ascending key (Str.insert_sorted key x l).
Proof.
  induction l as [|z l IH]; simpl; [tauto|].
  intros [Hz Hl]. destruct (String.leb (key z) (key x)) eqn:E.
  - specialize (IH Hl). simpl. split; [|exact IH].
    destruct l as [|w l]; simpl in *; [exact E|].
    destruct (String.leb (key w) (key x)); [exact Hz | exact E].
  - simpl. split; [|tauto].
    destruct (String.leb_total (key z) (key x)); congruence.
Qed.

Lemma sort_by_from {A : Type} (key : A -> string) (l : list A) :
  forall acc,
    ascending key acc ->
    ascending key (fold_left (fun acc x => Str.insert_sorted key x acc) l acc)
    /\ List.length (fold_left (fun acc x => Str.insert_sorted key x acc)
                              l acc) = (List.length l + List.length acc)%nat
    /\ forall y, In y (fold_left (fun acc x => Str.insert_sorted key x acc)
                                 l acc) <-> In y l \/ In y acc.
Proof.
  induction l as [|x l IH]; intros acc Hacc; simpl.
  - split; [exact Hacc|]. split; [reflexivity|]. intro y. tauto.
  - destruct (IH (Str.insert_sorted key x acc)
                 (insert_sorted_ascending key x acc Hacc)) as (H1 & H2 & H3).
    split; [exact H1|]. split.
    + rewrite H2, insert_sorted_length. lia.
    + intro y. rewrite H3, insert_sorted_In. intuition congruence.
Qed.

End OrderFacts.

Section DiscoverFacts.
Local Open Scope list_scope.

Lemma insert_sorted_Permutation {A : Type} (key : A -> string) (x : A)
  (l : list A) :
  Permutation (Str.insert_sorted key x l) (x :: l).
Proof.
  induction l as [|z l IH]; simpl; [reflexivity|].
  destruct (String.leb (key z) (key x)); [|reflexivity].
  rewrite IH. apply perm_swap.
Qed.

Lemma sort_by_Permutation {A : Type} (key : A -> string) (l : list A) :
  forall acc,
    Permutation (fold_left (fun acc x => Str.insert_sorted key x acc) l acc)
                (l ++ acc).
Proof.
  induction l as [|x l IH]; intro acc; simpl; [reflexivity|].
  rewrite IH, insert_sorted_Permutation. symmetry. apply Permutation_middle.
Qed.

(** X4. Both variants take from a directory listing the files whose name
    ends in [_prof.csv], each once, and process them in ascending
    order of name, whatever the order of the listing. *)
Theorem discover_selects_and_sorts (dir : list Backend.file) :
  Permutation (Backend.discover dir)
              (filter (fun f => Str.endsWith (fst f) "_prof.csv") dir) /\
  ascending fst (Backend.discover dir) /\
  Processor.discover dir = Backend.discover dir.
Proof.
  unfold Backend.discover, Processor.discover, Str.sort_by.
  split; [|split; [|reflexivity]].
  - rewrite sort_by_Permutation. now rewrite app_nil_r.
  - apply sort_by_from. exact I.
Qed.

End DiscoverFacts.

(** ** What the in-memory loader keeps true *)

Section LoaderInvariants.
Context {B : Builtins}.
Local Open Scope list_scope.

Lemma backend_coordinate_range (v : value) :
  Backend.isValidCoordinate v = true <-> within (-180) 180 (Number v).
Proof.
  unfold Backend.isValidCoordinate. rewrite <- within_checks.
  destruct (Number v); simpl; rewrite ?andb_true_iff; intuition congruence.
Qed.

Lemma or_else_truthy_r (a b : value) :
  truthy b = true -> truthy (a ||' b) = true.
Proof. unfold or_else. intro Hb. now destruct (truthy a) eqn:E. Qed.

(** What processing one group does to the two variables. *)
Lemma loadProfile_effect (date : Date) (st : Backend.Store)
  (profileId : string) (rows : list row) :
  state_of (Backend.loadProfile date st (profileId, rows)) = st \/
  exists floatId lat lon,
    truthy floatId = true /\
    within (-180) 180 lat /\ within (-180) 180 lon /\
    Backend.FLOAT_DATA
      (state_of (Backend.loadProfile date st (profileId, rows))) =
    registered st floatId lat lon date /\
    Backend.MEASUREMENTS_DATA
      (state_of (Backend.loadProfile date st (profileId, rows))) =
    match Obj.get (Backend.MEASUREMENTS_DATA st) (ToString floatId) with
    | Obj.Inherited => Backend.MEASUREMENTS_DATA st
    | Obj.Own items =>
        Obj.set (Backend.MEASUREMENTS_DATA st) (ToString floatId)
                (items ++
                 [stored_item (ToString floatId) profileId date rows])
    | Obj.Missing =>
        Obj.set (Backend.MEASUREMENTS_DATA st) (ToString floatId)
                [stored_item (ToString floatId) profileId date rows]
    end.
Proof.
  destruct rows as [|sample rest]; simpl; [now left|].
  set (floatId := _ ||' VStr _).
  assert (Hid : truthy floatId = true).
  { unfold floatId. apply or_else_truthy_r. reflexivity. }
  destruct (if isValidValue (prop sample "LATITUDE") then _ else _)
    as [lat|]; [|now left].
  destruct (if isValidValue (prop sample "LONGITUDE") then _ else _)
    as [lon|]; [|now left].
  destruct (Backend.isValidCoordinate (VNum lat)) eqn:Vlat; [|now left].
  destruct (Backend.isValidCoordinate (VNum lon)) eqn:Vlon; [|now left].
  simpl negb. simpl orb. cbv iota.
  apply backend_coordinate_range in Vlat, Vlon. simpl in Vlat, Vlon.
  right. exists floatId, lat, lon.
  split; [exact Hid|]. split; [exact Vlat|]. split; [exact Vlon|].
  unfold registered, stored_item.
  destruct (Obj.get (Backend.MEASUREMENTS_DATA st) (ToString floatId));
    simpl; split; reflexivity.
Qed.

(** A property of the two variables that every processed group keeps
    holds after [loadCSVData]. *)
Lemma loadCSVData_keeps (P : Backend.Store -> Prop) :
  P Backend.empty_store ->
  (forall date st entry,
      P st -> P (state_of (Backend.loadProfile date st entry))) ->
  forall dir, P (Backend.loadCSVData dir).
Proof.
  intros H0 Hstep dir. unfold Backend.loadCSVData.
  generalize (Backend.discover dir) as files.
  generalize Backend.empty_store H0. intros st Hst files. revert st Hst.
  induction files as [|f files IH]; intros st Hst; simpl; [exact Hst|].
  apply IH. unfold Backend.loadFile.
  destruct (groupByProfile (snd f)) as [profiles|]; [|exact Hst].
  generalize (Obj.entries profiles) as entries. intro entries.
  revert st Hst. induction entries as [|e entries IHe]; intros st Hst; simpl.
  - exact Hst.
  - pose proof (Hstep (extractDateFromFilename (fst f)) st e Hst) as He.
    destruct (Backend.loadProfile (extractDateFromFilename (fst f)) st e)
      as [st'|st']; simpl in He.
    + now apply IHe.
    + exact He.
Qed.

Lemma distinct_ids_snoc (l : list Backend.FloatRec) (x : Backend.FloatRec) :
  distinct_ids l ->
  Forall (fun f => strict_eq (Backend.float_id f) (Backend.float_id x)
                   = false) l ->
  distinct_ids (l ++ [x]).
Proof.
  induction l as [|f l IH]; simpl; intros Hd Hx.
  - split; [constructor | exact I].
  - destruct Hd as [Hf Hl]. inversion Hx as [|? ? Hfx Hlx]; subst. split.
    + apply Forall_app. split; [exact Hf|]. now constructor.
    + now apply IH.
Qed.

Lemma registered_distinct (st : Backend.Store) (floatId : value)
  (lat lon : num) (date : Date) :
  distinct_ids (Backend.FLOAT_DATA st) ->
  distinct_ids (registered st floatId lat lon date).
Proof.
  intro Hd. unfold registered.
  destruct (find _ (Backend.FLOAT_DATA st)) eqn:F; [exact Hd|].
  apply distinct_ids_snoc; [exact Hd|].
  apply Forall_forall. intros f Hin. simpl.
  exact (find_none _ _ F f Hin).
Qed.

(** X5. After [loadCSVData] no two float records have the same
    [float_id]: a float seen in several files, or in several groups of
    one file, is registered once. *)
Theorem loadCSVData_one_record_per_float (dir : list Backend.file) :
  distinct_ids (Backend.FLOAT_DATA (Backend.loadCSVData dir)).
Proof.
  apply (loadCSVData_keeps
           (fun st => distinct_ids (Backend.FLOAT_DATA st))).
  - exact I.
  - intros date st [profileId rows] Hst.
    destruct (loadProfile_effect date st profileId rows)
      as [-> | (floatId & lat & lon & _ & _ & _ & -> & _)]; [exact Hst|].
    now apply registered_distinct.
Qed.

Lemma registered_well_formed (st : Backend.Store) (floatId : value)
  (lat lon : num) (date : Date) :
  truthy floatId = true ->
  within (-180) 180 lat -> within (-180) 180 lon ->
  Forall well_formed_float (Backend.FLOAT_DATA st) ->
  Forall well_formed_float (registered st floatId lat lon date).
Proof.
  intros Hid Hlat Hlon Hst. unfold registered.
  destruct (find _ (Backend.FLOAT_DATA st)); [exact Hst|].
  apply Forall_app. split; [exact Hst|]. constructor; [|constructor].
  unfold well_formed_float. simpl. tauto.
Qed.

Lemma loadCSVData_well_formed (dir : list Backend.file) :
  Forall well_formed_float (Backend.FLOAT_DATA (Backend.loadCSVData dir)).
Proof.
  apply (loadCSVData_keeps
           (fun st => Forall well_formed_float (Backend.FLOAT_DATA st))).
  - constructor.
  - intros date st [profileId rows] Hst.
    destruct (loadProfile_effect date st profileId rows)
      as [-> | (floatId & lat & lon & Hid & Hlat & Hlon & -> & _)];
      [exact Hst|].
    now apply registered_well_formed.
Qed.

(** X6. Every float record of [loadCSVData] has a finite position with
    both coordinates between -180 and 180, the status [active], the
    platform type [ARGO_FLOAT], its identifier as WMO number, and an
    identifier that is truthy. *)
Theorem loadCSVData_float_records (dir : list Backend.file)
  (f : Backend.FloatRec) :
  In f (Backend.FLOAT_DATA (Backend.loadCSVData dir)) ->
  within (-180) 180 (Backend.last_position_lat f) /\
  within (-180) 180 (Backend.last_position_lon f) /\
  Backend.status f = "active" /\
  Backend.platform_type f = "ARGO_FLOAT" /\
  Backend.wmo_number f = Backend.float_id f /\
  truthy (Backend.float_id f) = true.
Proof.
  intro Hin.
  exact (proj1 (Forall_forall _ _) (loadCSVData_well_formed dir) f Hin).
Qed.

End LoaderInvariants.

Section IndexFacts.
Context {B : Builtins}.
Local Open Scope list_scope.

Lemma registered_incl (st : Backend.Store) (floatId : value)
  (lat lon : num) (date : Date) (f : Backend.FloatRec) :
  In f (Backend.FLOAT_DATA st) -> In f (registered st floatId lat lon date).
Proof.
  intro Hin. unfold registered. destruct (find _ _); [exact Hin|].
  apply in_or_app. now left.
Qed.

Lemma strict_eq_refl (v : value) : truthy v = true -> strict_eq v v = true.
Proof.
  destruct v as [| |b|n|s]; simpl; try discriminate.
  - now destruct b.
  - destruct n; try discriminate; try reflexivity.
    intros _. apply Qeq_bool_iff. reflexivity.
  - intros _. apply String.eqb_refl.
Qed.

(** The group just processed has a record in the new float list. *)
Lemma registered_has (st : Backend.Store) (floatId : value)
  (lat lon : num) (date : Date) :
  truthy floatId = true ->
  exists f, In f (registered st floatId lat lon date) /\
            strict_eq (Backend.float_id f) floatId = true.
Proof.
  intro Hid. unfold registered.
  destruct (find _ (Backend.FLOAT_DATA st)) as [f|] eqn:F.
  - apply find_some in F. exists f. exact F.
  - eexists. split; [apply in_or_app; right; left; reflexivity|].
    simpl. now apply strict_eq_refl.
Qed.

Lemma registered_new (st : Backend.Store) (floatId : value)
  (lat lon : num) (date : Date) (f : Backend.FloatRec) :
  In f (registered st floatId lat lon date) ->
  In f (Backend.FLOAT_DATA st) \/ Backend.float_id f = floatId.
Proof.
  unfold registered. destruct (find _ _); [now left|].
  intro Hin. apply in_app_or in Hin.
  destruct Hin as [Hin | [<- | []]]; [now left | now right].
Qed.

Lemma set_In {A : Type} (o : Obj.dict A) (k k' : string) (a a' : A) :
  In (k', a') (Obj.set o k a) ->
  (k' = k /\ a' = a) \/ In (k', a') o.
Proof.
  induction o as [|[k0 a0] o IH]; simpl.
  - intros [[= <- <-] | []]. now left.
  - destruct (String.eqb k0 k) eqn:E; simpl.
    + apply String.eqb_eq in E. subst k0.
      intros [[= <- <-] | Hin]; [now left | now right; right].
    + intros [Heq | Hin]; [now right; left|].
      destruct (IH Hin) as [H | H]; [now left | now right; right].
Qed.

Lemma indexed_item (st : Backend.Store) (key : string)
  (items : list Backend.ProfileEntry) (item : Backend.ProfileEntry)
  (floats : list Backend.FloatRec) :
  indexed st ->
  (forall f, In f (Backend.FLOAT_DATA st) -> In f floats) ->
  (forall f, In f floats ->
             In f (Backend.FLOAT_DATA st) \/
             ToString (Backend.float_id f) = key) ->
  Obj.inherited key = false ->
  (exists f v, In f floats /\ strict_eq (Backend.float_id f) v = true /\
               ToString v = key) ->
  (exists profileId, Backend.profile_id item = key ++ "_" ++ profileId)
    %string ->
  (Obj.own (Backend.MEASUREMENTS_DATA st) key = Some items \/
   Obj.own (Backend.MEASUREMENTS_DATA st) key = None /\ items = []) ->
  indexed {| Backend.FLOAT_DATA := floats;
             Backend.MEASUREMENTS_DATA :=
               Obj.set (Backend.MEASUREMENTS_DATA st) key
                       (items ++ [item]) |}.
Proof.
  intros (Hnd & Hmd & Hfl) Hincl Hnew Hinh Hfloat Hitem Hold.
  split; [|split]; simpl.
  - now apply set_NoDup.
  - intros k' i' Hin. apply set_In in Hin.
    destruct Hin as [[-> ->] | Hin].
    + split; [now destruct items|]. split; [exact Hinh|].
      split; [exact Hfloat|].
      apply Forall_app. split; [|now constructor].
      destruct Hold as [Hown | [_ ->]]; [|constructor].
      apply (own_In _ _ _ Hnd) in Hown.
      now destruct (Hmd key items Hown) as (_ & _ & _ & H).
    + destruct (Hmd k' i' Hin) as (H1 & H2 & (f & v & Hf & Hv) & H4).
      split; [exact H1|]. split; [exact H2|]. split; [|exact H4].
      exists f, v. split; [now apply Hincl | exact Hv].
  - intros f Hin. rewrite own_set.
    destruct (Hnew f Hin) as [Hf | Hf].
    + destruct (Hfl f Hf) as [H | [i Hi]]; [now left|]. right.
      destruct (String.eqb key _); eauto.
    + right. rewrite Hf, String.eqb_refl. eauto.
Qed.

Lemma loadProfile_indexed (date : Date) (st : Backend.Store)
  (entry : string * list row) :
  indexed st -> indexed (state_of (Backend.loadProfile date st entry)).
Proof.
  destruct entry as [profileId rows]. intro Hst.
  destruct (loadProfile_effect date st profileId rows)
    as [-> | (floatId & lat & lon & Hid & _ & _ & Hfl & Hmd)]; [exact Hst|].
  destruct (state_of (Backend.loadProfile date st (profileId, rows)))
    as [floats md]. simpl in Hfl, Hmd. subst floats.
  assert (Hincl : forall f, In f (Backend.FLOAT_DATA st) ->
                            In f (registered st floatId lat lon date))
    by (intro f; apply registered_incl).
  assert (Hnew : forall f, In f (registered st floatId lat lon date) ->
                           In f (Backend.FLOAT_DATA st) \/
                           ToString (Backend.float_id f) = ToString floatId).
  { intros f Hin. destruct (registered_new _ _ _ _ _ _ Hin) as [H | ->];
      [now left | now right]. }
  assert (Hfloat : exists f v,
             In f (registered st floatId lat lon date) /\
             strict_eq (Backend.float_id f) v = true /\
             ToString v = ToString floatId).
  { destruct (registered_has st floatId lat lon date Hid) as (f & Hf & He).
    exists f, floatId. tauto. }
  destruct (Obj.get (Backend.MEASUREMENTS_DATA st) (ToString floatId))
    as [items| |] eqn:G; subst md.
  - apply get_Own in G.
    assert (Hinh : Obj.inherited (ToString floatId) = false).
    { destruct Hst as (Hnd & Hmd & _).
      apply (own_In _ _ _ Hnd) in G. now destruct (Hmd _ _ G) as (_ & H & _). }
    apply (indexed_item st (ToString floatId) items); try assumption.
    + eexists. reflexivity.
    + now left.
  - apply get_Inherited in G. destruct G as [_ Ginh].
    destruct Hst as (Hnd & Hmd & Hfl). split; [exact Hnd|]. split; simpl.
    + intros k i Hin.
      destruct (Hmd k i Hin) as (H1 & H2 & (f & v & Hf & Hv) & H4).
      split; [exact H1|]. split; [exact H2|]. split; [|exact H4].
      exists f, v. split; [now apply Hincl | exact Hv].
    + intros f Hin. destruct (registered_new _ _ _ _ _ _ Hin) as [H | ->].
      * now apply Hfl.
      * now left.
  - apply get_Missing in G. destruct G as [Gown Ginh].
    apply (indexed_item st (ToString floatId) []); try assumption.
    + eexists. reflexivity.
    + now right.
Qed.

Lemma loadCSVData_indexed (dir : list Backend.file) :
  indexed (Backend.loadCSVData dir).
Proof.
  apply (loadCSVData_keeps indexed).
  - split; [constructor|]. split; [intros k i []|intros f []].
  - intros date st entry. apply loadProfile_indexed.
Qed.

(** X7. After [loadCSVData] the two variables fit together: every key of
    [MEASUREMENTS_DATA] holds at least one profile entry, is the text
    of the identifier of a registered float and is no inherited name;
    the identifier of each entry is that key, an underscore and a
    profile key; and every registered float has its entries, unless
    its identifier reads as an inherited name. *)
Theorem loadCSVData_index_consistent (dir : list Backend.file) :
  (forall key items,
      Obj.own (Backend.MEASUREMENTS_DATA (Backend.loadCSVData dir)) key =
      Some items ->
      items <> [] /\
      Obj.inherited key = false /\
      (exists f v, In f (Backend.FLOAT_DATA (Backend.loadCSVData dir)) /\
                   strict_eq (Backend.float_id f) v = true /\
                   ToString v = key) /\
      Forall (fun p => exists profileId,
                  Backend.profile_id p = key ++ "_" ++ profileId)%string
             items) /\
  (forall f, In f (Backend.FLOAT_DATA (Backend.loadCSVData dir)) ->
             Obj.inherited (ToString (Backend.float_id f)) = true \/
             exists items,
               Obj.own (Backend.MEASUREMENTS_DATA (Backend.loadCSVData dir))
                       (ToString (Backend.float_id f)) = Some items).
Proof.
  destruct (loadCSVData_indexed dir) as (Hnd & Hmd & Hfl).
  split; [|exact Hfl].
  intros key items Hown. apply Hmd. now apply (own_In _ _ _ Hnd).
Qed.

End IndexFacts.

(** ** The float listings *)

Section ListingFacts.
Context {B : Builtins}.
Local Open Scope list_scope.

Lemma filter_all {A : Type} (p : A -> bool) (l : list A) :
  Forall (fun x => p x = true) l -> filter p l = l.
Proof.
  induction 1 as [|x l Hx _ IH]; simpl; [reflexivity|]. now rewrite Hx, IH.
Qed.

Lemma filter_none {A : Type} (p : A -> bool) (l : list A) :
  Forall (fun x => p x = false) l -> filter p l = [].
Proof.
  induction 1 as [|x l Hx _ IH]; simpl; [reflexivity|]. now rewrite Hx.
Qed.

(** The part of [GET /api/floats] after the status filter returns
    nothing on an empty list. *)
Lemma api_floats_of_nothing (q : Backend.FloatsQuery) :
  Backend.api_floats
    {| Backend.FLOAT_DATA := []; Backend.MEASUREMENTS_DATA := [] |} q = [].
Proof.
  unfold Backend.api_floats. simpl.
  destruct (Backend.given (Backend.q_status q)); simpl;
    destruct (Backend.given (Backend.q_bbox q)); simpl;
    try destruct (_ =? 4)%nat; simpl;
    destruct (Backend.given (Backend.q_date_range q)) as [r|]; simpl;
    try reflexivity;
    destruct (Str.split "," r) as [|? [|? [|? ?]]]; reflexivity.
Qed.

(** X9. Every float [loadCSVData] registers is [active], so on its result
    the status parameter of [GET /api/floats] either filters nothing
    (for [active]) or leaves nothing (for any other status). *)
Theorem status_filter_on_loaded_floats (dir : list Backend.file)
  (q : Backend.FloatsQuery) (s : string) :
  Backend.q_status q = Some s -> s <> "" ->
  Backend.api_floats (Backend.loadCSVData dir) q =
  if String.eqb s "active"
  then Backend.api_floats (Backend.loadCSVData dir) (without_status q)
  else [].
Proof.
  intros Hq Hs.
  pose proof (loadCSVData_well_formed dir) as Hwf.
  unfold Backend.api_floats, without_status. simpl. rewrite Hq.
  unfold Backend.given at 1. simpl.
  destruct (String.eqb s "") eqn:E;
    [apply String.eqb_eq in E; contradiction|]. simpl.
  destruct (String.eqb s "active") eqn:Ea.
  - apply String.eqb_eq in Ea. subst s.
    rewrite filter_all; [reflexivity|].
    eapply Forall_impl; [|exact Hwf].
    intros f (_ & _ & -> & _). reflexivity.
  - rewrite filter_none.
    + pose proof (api_floats_of_nothing
                    {| Backend.q_bbox := Backend.q_bbox q;
                       Backend.q_date_range := Backend.q_date_range q;
                       Backend.q_status := None |}) as H0.
      unfold Backend.api_floats in H0. simpl in H0. exact H0.
    + eapply Forall_impl; [|exact Hwf].
      intros f (_ & _ & -> & _). rewrite String.eqb_sym. exact Ea.
Qed.

Lemma num_geb_NaN (n : num) : num_geb n NaN = false.
Proof. now destruct n. Qed.

Lemma num_leb_NaN (n : num) : num_leb n NaN = false.
Proof. now destruct n. Qed.

Lemma Math_min_NaN (a b : num) :
  a = NaN \/ b = NaN -> Math_min a b = NaN.
Proof. intros [-> | ->]; [reflexivity | now destruct a]. Qed.

(** X10. A bounding box is used only when it has four parts, and a part
    that does not read as a number makes it match no float: with
    another number of parts [GET /api/floats] returns every float, and
    with four parts of which one converts to [NaN] it returns none. *)
Theorem bbox_malformed (st : Backend.Store) (s : string) :
  s <> "" ->
  (List.length (Str.split "," s) <> 4%nat ->
   Backend.api_floats st (bbox_query s) = Backend.FLOAT_DATA st) /\
  (List.length (Str.split "," s) = 4%nat ->
   Exists (fun part => StringToNumber part = NaN) (Str.split "," s) ->
   Backend.api_floats st (bbox_query s) = []).
Proof.
  intro Hs. split.
  - intro Hlen. unfold Backend.api_floats, bbox_query, Backend.given.
    simpl. destruct (String.eqb s "") eqn:E;
      [apply String.eqb_eq in E; contradiction|]. simpl.
    rewrite length_map. apply Nat.eqb_neq in Hlen. now rewrite Hlen.
  - intros Hlen Hnan.
    destruct (Str.split "," s) as [|a [|b [|c [|d [|]]]]] eqn:Hsplit;
      try discriminate.
    rewrite (api_floats_bbox st s a b c d Hs Hsplit).
    apply filter_none. apply Forall_forall. intros f _.
    unfold Backend.inBbox. simpl.
    assert (H : Math_min (StringToNumber a) (StringToNumber c) = NaN \/
                Math_min (StringToNumber b) (StringToNumber d) = NaN).
    { inversion Hnan as [? ? Ha | ? ? Hnan1]; subst;
        [left; apply Math_min_NaN; now left|].
      inversion Hnan1 as [? ? Hb | ? ? Hnan2]; subst;
        [right; apply Math_min_NaN; now left|].
      inversion Hnan2 as [? ? Hc | ? ? Hnan3]; subst;
        [left; apply Math_min_NaN; now right|].
      inversion Hnan3 as [? ? Hd | ? ? Hnan4]; subst;
        [right; apply Math_min_NaN; now right | inversion Hnan4]. }
    destruct H as [-> | ->]; rewrite num_geb_NaN; simpl;
      now rewrite ?andb_false_r.
Qed.

(** X11. [POST /api/query/spatial] with a box of four values and no date
    range selects the floats [GET /api/floats] selects for the same
    four numbers given as text, and counts them. *)
Theorem spatial_agrees_with_listing (st : Backend.Store)
  (s a b c d : string) :
  s <> "" -> Str.split "," s = [a; b; c; d] ->
  Backend.api_spatial st
    (Some [VNum (StringToNumber a); VNum (StringToNumber b);
           VNum (StringToNumber c); VNum (StringToNumber d)]) None =
  (List.length (Backend.api_floats st (bbox_query s)),
   map Backend.float_id (Backend.api_floats st (bbox_query s))).
Proof.
  intros Hs Hsplit. rewrite (api_floats_bbox st s a b c d Hs Hsplit).
  reflexivity.
Qed.

(** X12. The date-range filter of [GET /api/floats] is inclusive at both
    ends and needs two dates that parse: a float is returned exactly
    when its profile date lies between the two dates. *)
Theorem date_range_filter (st : Backend.Store) (r s e : string)
  (f : Backend.FloatRec) :
  r <> "" -> Str.split "," r = [s; e] ->
  (In f (Backend.api_floats st
           {| Backend.q_bbox := None; Backend.q_date_range := Some r;
              Backend.q_status := None |}) <->
   In f (Backend.FLOAT_DATA st) /\
   exists t ts te,
     Backend.last_profile_date f = Some t /\
     Date_parse s = Some ts /\ Date_parse e = Some te /\
     ts <= t <= te).
Proof.
  intros Hr Hsplit. unfold Backend.api_floats. simpl.
  unfold Backend.given.  simpl.
  destruct (String.eqb r "") eqn:E;
    [apply String.eqb_eq in E; contradiction|]. simpl.
  rewrite Hsplit, filter_In. unfold Backend.in_range.
  split; intros [Hin H]; (split; [exact Hin|]).
  - destruct (Backend.last_profile_date f) as [t|],
      (Date_parse s) as [ts|], (Date_parse e) as [te|];
      simpl in H; rewrite ?andb_false_r in H; try discriminate.
    apply andb_true_iff in H. destruct H as [H1 H2].
    apply Qle_bool_iff in H1, H2. rewrite <- Zle_Qle in H1, H2.
    exists t, ts, te. tauto.
  - destruct H as (t & ts & te & -> & -> & -> & H1 & H2). simpl.
    apply andb_true_iff. split; apply Qle_bool_iff; now rewrite <- Zle_Qle.
Qed.

End ListingFacts.

(** ** The per-float and per-profile listings *)

Section PerFloatFacts.
Context {B : Builtins}.
Local Open Scope list_scope.

(** X13. The profile listing and the trajectory of a float have one item
    per stored profile entry, in the order of ingestion and with the
    dates of the entries, and every item carries the same position:
    the trajectory of a float never moves. *)
Theorem trajectory_is_one_position (st : Backend.Store) (floatId : string)
  (pts : list Backend.PointOut) :
  Backend.api_trajectory st floatId = Backend.Json pts ->
  (exists la lo,
      Forall (fun p => Backend.pt_latitude p = la /\
                       Backend.pt_longitude p = lo) pts) /\
  (exists items,
      (Obj.own (Backend.MEASUREMENTS_DATA st) floatId = Some items \/
       Obj.own (Backend.MEASUREMENTS_DATA st) floatId = None /\ items = [])
      /\ map Backend.pt_timestamp pts = map Backend.date items) /\
  (exists ps,
      Backend.api_profiles st floatId = Backend.Json ps /\
      map (fun p => (Backend.po_date p, Backend.po_latitude p,
                     Backend.po_longitude p)) ps =
      map (fun p => (Backend.pt_timestamp p, Backend.pt_latitude p,
                     Backend.pt_longitude p)) pts).
Proof.
  unfold Backend.api_trajectory, Backend.api_profiles.
  destruct (Obj.get (Backend.MEASUREMENTS_DATA st) floatId) as [items| |]
    eqn:G; intros [= <-].
  - apply get_Own in G. split; [|split].
    + exists (Backend.shown Backend.last_position_lat st floatId),
             (Backend.shown Backend.last_position_lon st floatId).
      apply Forall_forall. intros p Hp. apply in_map_iff in Hp.
      destruct Hp as (e & <- & _). split; reflexivity.
    + exists items. split; [now left|]. now rewrite map_map.
    + eexists. split; [reflexivity|]. now rewrite !map_map.
  - apply get_Missing in G. split; [|split].
    + exists (Fin 0), (Fin 0). constructor.
    + exists []. split; [right; split; [apply G | reflexivity] | reflexivity].
    + eexists. split; reflexivity.
Qed.

Lemma strict_eq_VStr (v : value) (s : string) :
  strict_eq v (VStr s) = true <-> v = VStr s.
Proof.
  destruct v; simpl; try (split; congruence).
  rewrite String.eqb_eq. split; congruence.
Qed.

(** X14. The listings look a float up by comparing its identifier with the
    text of the request: when no float record has that text as its
    identifier (as when the identifiers are numbers), every point of
    the trajectory is at latitude 0 and longitude 0. *)
Theorem trajectory_of_unmatched_identifier (st : Backend.Store)
  (floatId : string) (pts : list Backend.PointOut) :
  Backend.api_trajectory st floatId = Backend.Json pts ->
  (forall f, In f (Backend.FLOAT_DATA st) ->
             Backend.float_id f <> VStr floatId) ->
  Forall (fun p => Backend.pt_latitude p = Fin 0 /\
                   Backend.pt_longitude p = Fin 0) pts.
Proof.
  intros Hpts Hno.
  assert (Hshown : forall proj, Backend.shown proj st floatId = Fin 0).
  { intro proj. unfold Backend.shown.
    destruct (find _ (Backend.FLOAT_DATA st)) as [f|] eqn:F; [|reflexivity].
    apply find_some in F. destruct F as [Hin Heq].
    apply strict_eq_VStr in Heq. elim (Hno f Hin Heq). }
  unfold Backend.api_trajectory in Hpts.
  destruct (Obj.get (Backend.MEASUREMENTS_DATA st) floatId);
    try discriminate; injection Hpts as <-; [|constructor].
  apply Forall_forall. intros p Hp. apply in_map_iff in Hp.
  destruct Hp as (e & <- & _). simpl. now rewrite !Hshown.
Qed.

Lemma find_measurements_cases
  (floats : list (string * list Backend.ProfileEntry)) (profileId : string) :
  (Backend.find_measurements floats profileId = [] /\
   forall k items p, In (k, items) floats -> In p items ->
                     Backend.profile_id p <> profileId) \/
  exists k items p, In (k, items) floats /\ In p items /\
                    Backend.profile_id p = profileId /\
                    Backend.find_measurements floats profileId =
                    Backend.measurements p.
Proof.
  induction floats as [|[k items] floats IH]; simpl.
  - left. split; [reflexivity | intros ? ? ? []].
  - destruct (find _ items) as [q|] eqn:F.
    + apply find_some in F. destruct F as [Hq Heq].
      apply String.eqb_eq in Heq.
      right. exists k, items, q. repeat split; auto.
    + destruct IH as [[Hnil Hno] | (k2 & i2 & p2 & H1 & H2 & H3 & H4)].
      * left. split; [exact Hnil|].
        intros k' items' p [[= <- <-] | Hin] Hp.
        -- pose proof (find_none _ _ F p Hp) as Hn. simpl in Hn.
           now apply String.eqb_neq in Hn.
        -- now apply (Hno k' items' p).
      * right. exists k2, i2, p2. repeat split; auto.
Qed.

(** X15. The measurement query answers with the measurements of a stored
    profile entry that has the requested identifier, and with the
    empty sequence only when no such entry is stored or that entry has
    no measurement; it never answers with the measurements of an
    entry of another identifier. *)
Theorem measurements_of_stored_profile (st : Backend.Store)
  (profileId : string) :
  exists ms,
    Backend.api_measurements st profileId = Backend.Json ms /\
    ((ms = [] /\
      forall k items p,
        In (k, items) (Backend.MEASUREMENTS_DATA st) -> In p items ->
        Backend.profile_id p <> profileId) \/
     exists k items p,
       In (k, items) (Backend.MEASUREMENTS_DATA st) /\ In p items /\
       Backend.profile_id p = profileId /\ ms = Backend.measurements p).
Proof.
  unfold Backend.api_measurements. eexists. split; [reflexivity|].
  destruct (find_measurements_cases
              (Obj.entries (Backend.MEASUREMENTS_DATA st)) profileId)
    as [[Hnil Hno] | (k & items & p & Hin & Hp & Hid & Hms)].
  - left. split; [exact Hnil|].
    intros k items p Hin. apply (Hno k items p). now apply entries_In.
  - right. exists k, items, p.
    apply (proj1 (entries_In _ _)) in Hin. repeat split; assumption.
Qed.

End PerFloatFacts.

(** ** The float table of the database variant *)

Section UpsertFacts.
Context {B : Builtins}.
Local Open Scope list_scope.

Lemma map_same {A C : Type} (f : A -> A) (g : A -> C) (l : list A) :
  (forall x, In x l -> g (f x) = g x) -> map g (map f l) = map g l.
Proof.
  intro H. rewrite map_map. apply map_ext_in. exact H.
Qed.

Lemma existsb_false {A : Type} (p : A -> bool) (l : list A) :
  existsb p l = false -> forall x, In x l -> p x = false.
Proof.
  intros H x Hin. destruct (p x) eqn:E; [|reflexivity].
  assert (existsb p l = true) by (apply existsb_exists; eauto). congruence.
Qed.

Lemma existsb_preserved {A : Type} (p : A -> bool) (f : A -> A)
  (l : list A) :
  (forall x, p (f x) = p x) -> existsb p (map f l) = existsb p l.
Proof.
  intro H. induction l as [|x l IH]; simpl; [reflexivity|].
  now rewrite H, IH.
Qed.

(** X17. [upsertFloat] applied twice with the same identifier and position
    leaves the tables as one application does. *)
Theorem upsertFloat_idempotent (db : Processor.DB) (floatId : string)
  (lat lon : value) :
  Processor.upsertFloat (Processor.upsertFloat db floatId lat lon)
                        floatId lat lon =
  Processor.upsertFloat db floatId lat lon.
Proof.
  unfold Processor.upsertFloat. simpl.
  destruct (existsb _ (Processor.argo_floats db)) eqn:E.
  - rewrite (existsb_preserved
               (fun f => String.eqb (Processor.float_id f) floatId)), E.
    2:{ intro f.
        destruct (String.eqb (Processor.float_id f) floatId) eqn:Ef;
          simpl; exact Ef. }
    f_equal. rewrite map_map. apply map_ext. intro f.
    destruct (String.eqb (Processor.float_id f) floatId) eqn:Ef; simpl;
      now rewrite Ef.
  - rewrite existsb_app. simpl. rewrite String.eqb_refl, orb_true_r.
    f_equal. rewrite map_app. simpl. rewrite String.eqb_refl. f_equal.
    rewrite <- (map_id (Processor.argo_floats db)) at 2.
    apply map_ext_in. intros f Hin.
    now rewrite (existsb_false _ _ E f Hin).
Qed.

(** X18. [upsertFloat] writes nothing but the position of the float: the
    other columns of every row, the order of the rows and the two
    other tables stay as they are, and a float that is new gets one
    row, at the end, with the default columns. *)
Theorem upsertFloat_writes_position_only (db : Processor.DB)
  (floatId : string) (lat lon : value) :
  map fixed_columns
      (Processor.argo_floats (Processor.upsertFloat db floatId lat lon)) =
  map fixed_columns (Processor.argo_floats db) ++
  (if existsb (fun f => String.eqb (Processor.float_id f) floatId)
              (Processor.argo_floats db)
   then []
   else [(floatId, floatId, default_date, "active"%string,
          "ARGO_FLOAT"%string)]) /\
  (forall f, In f (Processor.argo_floats db) ->
             Processor.float_id f <> floatId ->
             In f (Processor.argo_floats
                     (Processor.upsertFloat db floatId lat lon))) /\
  Processor.argo_profiles (Processor.upsertFloat db floatId lat lon) =
  Processor.argo_profiles db /\
  Processor.argo_measurements (Processor.upsertFloat db floatId lat lon) =
  Processor.argo_measurements db.
Proof.
  unfold Processor.upsertFloat. simpl.
  destruct (existsb _ (Processor.argo_floats db)) eqn:E.
  - split; [|split; [|split; reflexivity]].
    + rewrite app_nil_r. apply map_same. intros f _.
      now destruct (String.eqb (Processor.float_id f) floatId).
    + intros f Hin Hne. apply in_map_iff. exists f. split; [|exact Hin].
      apply String.eqb_neq in Hne. now rewrite Hne.
  - split; [|split; [|split; reflexivity]].
    + now rewrite map_app.
    + intros f Hin _. apply in_or_app. now left.
Qed.

End UpsertFacts.

(** ** What the database variant keeps true *)

Section ProcessorInvariants.
Context {B : Builtins}.
Local Open Scope list_scope.

Lemma group_entry_rows (data : list row) (groups : Obj.dict (list row))
  (k : string) (rows : list row) :
  groupByProfile data = Some groups ->
  In (k, rows) (Obj.entries groups) ->
  rows = rows_of_key k data /\ rows <> [].
Proof.
  intros Hg Hin. pose proof (groupByProfile_spec data) as H.
  rewrite Hg in H. destruct H as (Hnd & _ & Hown).
  apply (proj1 (entries_In _ _)) in Hin.
  apply (own_In _ _ _ Hnd) in Hin. rewrite Hown in Hin.
  destruct (rows_of_key k data); [discriminate|].
  injection Hin as <-. split; [reflexivity | discriminate].
Qed.

Lemma group_entry_key (data : list row) (groups : Obj.dict (list row))
  (k : string) (rows : list row) :
  groupByProfile data = Some groups ->
  In (k, rows) (Obj.entries groups) ->
  exists r, In r data /\ profile_key r = k.
Proof.
  intros Hg Hin. destruct (group_entry_rows data groups k rows Hg Hin)
    as [-> Hne].
  destruct (rows_of_key k data) as [|r l] eqn:E; [now elim Hne|].
  assert (Hr : In r (rows_of_key k data)) by (rewrite E; now left).
  apply filter_In in Hr. destruct Hr as [Hr Hk].
  apply String.eqb_eq in Hk. eauto.
Qed.

(** What processing one group does to the tables. *)
Lemma processProfileData_effect (md : Processor.Metadata) (db : Processor.DB)
  (profileId : string) (rows : list row) :
  Processor.processProfileData md db (profileId, rows) = db \/
  exists floatId lat lon cycle,
    Processor.unusable lat lon = false /\
    Processor.processProfileData md db (profileId, rows) =
    stored_group db floatId lat lon cycle
      (extractDateFromFilename (Processor.basename profileId)) rows.
Proof.
  unfold Processor.processProfileData.
  destruct rows as [|sample rest]; [now left|].
  destruct (Processor.resolve_position _ _ _ _) as [[lat lon]|]; [|now left].
  destruct (Processor.unusable lat lon) eqn:U; [now left|].
  right. do 4 eexists. split; [exact U|]. reflexivity.
Qed.

Lemma discover_In (dir : list Processor.file) (f : Processor.file) :
  In f (Processor.discover dir) -> In f dir.
Proof.
  unfold Processor.discover, Str.sort_by. intro Hin.
  apply (proj2 (proj2 (sort_by_from fst _ [] I))) in Hin.
  destruct Hin as [Hin | []]. now apply filter_In in Hin.
Qed.

(** A property of the tables that every processed group keeps holds
    after [processAllFiles]; [Q] is what is known of the profile
    keys. *)
Lemma processAllFiles_keeps (P : Processor.DB -> Prop) (Q : string -> Prop)
  (dir : list Processor.file) :
  (forall f r, In f dir -> In r (snd f) -> Q (profile_key r)) ->
  (forall md db profileId rows,
      Q profileId -> P db ->
      P (Processor.processProfileData md db (profileId, rows))) ->
  forall db, P db -> P (Processor.processAllFiles db dir).
Proof.
  intros HQ Hstep db Hdb. unfold Processor.processAllFiles.
  generalize (Processor.extractFloatMetadata (Processor.discover dir)).
  intro md.
  assert (Hfiles : forall f, In f (Processor.discover dir) -> In f dir)
    by apply discover_In.
  revert db Hdb. induction (Processor.discover dir) as [|f files IH];
    intros db Hdb; simpl; [exact Hdb|].
  apply IH; [intros g Hg; apply Hfiles; now right|].
  unfold Processor.processCsvFile.
  destruct (groupByProfile (snd f)) as [groups|] eqn:G; [|exact Hdb].
  assert (Hkeys : forall k rows, In (k, rows) (Obj.entries groups) -> Q k).
  { intros k rows Hin.
    destruct (group_entry_key _ _ _ _ G Hin) as (r & Hr & <-).
    apply (HQ f r); [apply Hfiles; now left | exact Hr]. }
  revert db Hdb Hkeys. induction (Obj.entries groups) as [|[k rows] es IHe];
    intros db Hdb Hkeys; simpl; [exact Hdb|].
  apply IHe.
  - apply Hstep; [apply (Hkeys k rows); now left | exact Hdb].
  - intros k' rows' Hin. apply (Hkeys k' rows'). now right.
Qed.

Lemma upsertFloat_ids (db : Processor.DB) (floatId : string)
  (lat lon : value) :
  map Processor.float_id
      (Processor.argo_floats (Processor.upsertFloat db floatId lat lon)) =
  map Processor.float_id (Processor.argo_floats db) ++
  (if existsb (fun f => String.eqb (Processor.float_id f) floatId)
              (Processor.argo_floats db)
   then [] else [floatId]).
Proof.
  unfold Processor.upsertFloat. simpl.
  destruct (existsb _ (Processor.argo_floats db)).
  - rewrite app_nil_r. apply map_same. intros f _.
    now destruct (String.eqb (Processor.float_id f) floatId).
  - now rewrite map_app.
Qed.

Lemma valid_measurements_profile_id (pid : nat) (rows : list row) :
  Forall (fun m => Processor.profile_id m = pid)
         (Processor.valid_measurements pid [] rows).
Proof.
  induction rows as [|r rows IH]; simpl; [constructor|].
  destruct (isValidValue (prop r "PRES") && isValidValue (prop r "TEMP")).
  - rewrite valid_measurements_acc. apply Forall_app.
    split; [now constructor | exact IH].
  - exact IH.
Qed.

Lemma stored_group_tables (db : Processor.DB) (floatId : string)
  (lat lon cycle : value) (date : Date) (rows : list row) :
  Processor.argo_floats (stored_group db floatId lat lon cycle date rows) =
  Processor.argo_floats (Processor.upsertFloat db floatId lat lon) /\
  Processor.argo_profiles (stored_group db floatId lat lon cycle date rows) =
  Processor.argo_profiles db ++
  [profile_row (List.length (Processor.argo_profiles db)) floatId lat lon
               cycle date] /\
  Processor.argo_measurements
    (stored_group db floatId lat lon cycle date rows) =
  Processor.argo_measurements db ++
  Processor.valid_measurements (S (List.length (Processor.argo_profiles db)))
                               [] rows.
Proof.
  unfold stored_group.
  destruct (insertMeasurements_keeps
              (fst (Processor.insertProfile
                      (Processor.upsertFloat db floatId lat lon)
                      floatId lat lon cycle date))
              (S (List.length (Processor.argo_profiles db))) rows)
    as [Hf Hp].
  rewrite Hf, Hp, insertMeasurements_appends. simpl. repeat split.
Qed.

Lemma stored_group_consistent (db : Processor.DB) (floatId : string)
  (lat lon cycle : value) (date : Date) (rows : list row) :
  consistent db ->
  consistent (stored_group db floatId lat lon cycle date rows).
Proof.
  intros (Hnd & Hfk & Hids & Hms).
  destruct (stored_group_tables db floatId lat lon cycle date rows)
    as (Hf & Hp & Hm).
  unfold consistent. rewrite Hf, Hp, Hm, upsertFloat_ids.
  set (present := existsb _ (Processor.argo_floats db)).
  assert (Hfid : In floatId
                    (map Processor.float_id (Processor.argo_floats db) ++
                     (if present then [] else [floatId]))).
  { destruct present eqn:E.
    - rewrite app_nil_r. apply existsb_exists in E.
      destruct E as (f & Hin & Heq). apply String.eqb_eq in Heq.
      apply in_map_iff. now exists f.
    - apply in_or_app. right. now left. }
  split; [|split; [|split]].
  - destruct present eqn:E; [now rewrite app_nil_r|].
    apply NoDup_rev in Hnd. rewrite <- (rev_involutive (_ ++ _)).
    apply NoDup_rev. rewrite rev_app_distr. simpl.
    constructor; [|exact Hnd]. rewrite <- in_rev. intro Hin.
    apply in_map_iff in Hin. destruct Hin as (f & Heq & Hin).
    pose proof (existsb_false _ _ E f Hin) as Hn. simpl in Hn.
    apply String.eqb_neq in Hn. contradiction.
  - intros p Hin. apply in_app_or in Hin.
    destruct Hin as [Hin | [<- | []]]; [|exact Hfid].
    apply in_or_app. left. now apply Hfk.
  - rewrite map_app, length_app, Hids. simpl.
    rewrite Nat.add_1_r, seq_S. reflexivity.
  - intros m Hin. rewrite length_app. simpl. apply in_app_or in Hin.
    destruct Hin as [Hin | Hin].
    + specialize (Hms m Hin). lia.
    + pose proof (proj1 (Forall_forall _ _)
                    (valid_measurements_profile_id _ rows) m Hin) as ->.
      lia.
Qed.

(** X23. [processAllFiles] keeps the tables consistent: started on
    consistent tables it leaves one row per float identifier, every
    profile with a float of the float table, the profile keys in
    sequence, and every measurement with a profile of the profile
    table. *)
Theorem processAllFiles_consistent (db : Processor.DB)
  (dir : list Processor.file) :
  consistent db -> consistent (Processor.processAllFiles db dir).
Proof.
  apply (processAllFiles_keeps consistent (fun _ => True)).
  - intros; exact I.
  - intros md db0 profileId rows _ Hdb.
    destruct (processProfileData_effect md db0 profileId rows)
      as [-> | (floatId & lat & lon & cycle & _ & ->)]; [exact Hdb|].
    now apply stored_group_consistent.
Qed.

(** The profile rows [processAllFiles] appends all satisfy [ok] when
    the row of every stored group does. *)
Lemma processAllFiles_appends (ok : Processor.ProfileRow -> Prop)
  (Q : string -> Prop) (dir : list Processor.file) (db0 : Processor.DB) :
  (forall f r, In f dir -> In r (snd f) -> Q (profile_key r)) ->
  (forall n floatId lat lon cycle profileId,
      Q profileId -> Processor.unusable lat lon = false ->
      ok (profile_row n floatId lat lon cycle
            (extractDateFromFilename (Processor.basename profileId)))) ->
  exists added,
    Processor.argo_profiles (Processor.processAllFiles db0 dir) =
    Processor.argo_profiles db0 ++ added /\
    Forall ok added.
Proof.
  intros HQ Hok.
  apply (processAllFiles_keeps
           (fun db => exists added,
                Processor.argo_profiles db =
                Processor.argo_profiles db0 ++ added /\ Forall ok added)
           Q dir HQ).
  - intros md db profileId rows Hq (added & Hadd & Hall).
    destruct (processProfileData_effect md db profileId rows)
      as [-> | (floatId & lat & lon & cycle & U & ->)]; [now exists added|].
    destruct (stored_group_tables db floatId lat lon cycle
                (extractDateFromFilename (Processor.basename profileId)) rows)
      as (_ & -> & _).
    exists (added ++
            [profile_row (List.length (Processor.argo_profiles db)) floatId
               lat lon cycle
               (extractDateFromFilename (Processor.basename profileId))]).
    split; [now rewrite Hadd, app_assoc|].
    apply Forall_app. split; [exact Hall|]. constructor; [|constructor].
    now apply Hok.
  - exists []. split; [now rewrite app_nil_r | constructor].
Qed.

(** X24. [processAllFiles] only appends to the profile table, and every
    profile it appends has a truthy latitude and longitude that both
    convert to a number between -90 and 90: a position beyond 90
    degrees of longitude is never stored. *)
Theorem processAllFiles_stored_positions (db : Processor.DB)
  (dir : list Processor.file) :
  exists added,
    Processor.argo_profiles (Processor.processAllFiles db dir) =
    Processor.argo_profiles db ++ added /\
    Forall (fun p =>
              truthy (Processor.latitude p) = true /\
              truthy (Processor.longitude p) = true /\
              within (-90) 90 (Number (Processor.latitude p)) /\
              within (-90) 90 (Number (Processor.longitude p)) /\
              Processor.profile_direction p = "A"%string) added.
Proof.
  apply (processAllFiles_appends _ (fun _ => True)).
  - intros; exact I.
  - intros n floatId lat lon cycle profileId _ U. simpl.
    unfold Processor.unusable in U.
    rewrite !orb_false_iff, !negb_false_iff in U.
    destruct U as [[[Tlat Tlon] Vlat] Vlon].
    apply processor_coordinate_range in Vlat, Vlon. tauto.
Qed.

Lemma split_component_length (sep : ascii) (s c : string) :
  In c (Str.split sep s) -> (String.length c <= String.length s)%nat.
Proof.
  revert c. induction s as [|a s IH]; simpl; intros c.
  - intros [<- | []]. simpl. lia.
  - destruct (Ascii.eqb a sep).
    + intros [<- | Hin]; [simpl; lia|]. specialize (IH c Hin). lia.
    + destruct (Str.split sep s) as [|h t] eqn:E.
      * intros [<- | []]. simpl. lia.
      * intros [<- | Hin].
        -- assert (Hh : (String.length h <= String.length s)%nat)
             by (apply IH; now left).
           simpl. lia.
        -- assert (Hc : (String.length c <= String.length s)%nat)
             by (apply IH; now right).
           lia.
Qed.

Lemma last_bound (l : list string) (n : nat) :
  Forall (fun c => (String.length c <= n)%nat) l ->
  (String.length (last l ""%string) <= n)%nat.
Proof.
  induction 1 as [|c l Hc Hl IH]; simpl; [lia|].
  destruct l; [exact Hc | exact IH].
Qed.

Lemma basename_length (p : string) :
  (String.length (Processor.basename p) <= String.length p)%nat.
Proof.
  unfold Processor.basename. apply last_bound.
  apply Forall_forall. intros c Hin. apply filter_In in Hin.
  destruct Hin as [Hin _]. now apply (split_component_length "/"%char).
Qed.

(** X25. The database variant derives the date of a profile from the
    profile key, not from the file name: when every profile key of
    the files has fewer than 17 characters, every profile that
    [processAllFiles] appends is dated 2020-11-01, whatever the files
    are called. *)
Theorem processAllFiles_profile_dates (db : Processor.DB)
  (dir : list Processor.file) :
  (forall f r, In f dir -> In r (snd f) ->
               (String.length (profile_key r) < 17)%nat) ->
  exists added,
    Processor.argo_profiles (Processor.processAllFiles db dir) =
    Processor.argo_profiles db ++ added /\
    Forall (fun p => Processor.profile_date p =
                     Some (days_from_civil 2020 11 1 * msPerDay)) added.
Proof.
  intro Hkeys.
  apply (processAllFiles_appends _
           (fun k => (String.length k < 17)%nat) dir db Hkeys).
  intros n floatId lat lon cycle profileId Hlen _. simpl.
  unfold extractDateFromFilename.
  rewrite match_prof_csv_short; [reflexivity|].
  pose proof (basename_length profileId). lia.
Qed.

End ProcessorInvariants.

(** ** The float metadata *)

Section MetadataFacts.
Context {B : Builtins}.
Local Open Scope list_scope.

Lemma sound_metadata_set (md : Processor.Metadata) (key : string)
  (m : Processor.FloatMeta) :
  sound_metadata md -> sound_entry key m ->
  sound_metadata (Obj.set md key m).
Proof.
  intros [Hnd Hall] Hm. split; [now apply set_NoDup|].
  intros k' m' Hin. apply set_In in Hin.
  destruct Hin as [[-> ->] | Hin]; [exact Hm | now apply Hall].
Qed.

Lemma note_position_sound (date : Date) (md : Processor.Metadata)
  (entry : string * list row) :
  sound_metadata md ->
  sound_metadata (state_of (Processor.note_position date md entry)).
Proof.
  intros Hmd. destruct entry as [profileId [|sample rest]]; simpl;
    [exact Hmd|].
  set (lat := prop sample "LATITUDE" ||' prop sample "latitude").
  set (lon := prop sample "LONGITUDE" ||' prop sample "longitude").
  set (floatId := _ ||' VStr profileId).
  destruct (truthy lat && truthy lon && Processor.isValidCoordinate lat &&
            Processor.isValidCoordinate lon) eqn:C; [|exact Hmd].
  apply andb_true_iff in C. destruct C as [C Vlon].
  apply andb_true_iff in C. destruct C as [_ Vlat].
  apply processor_coordinate_range in Vlat, Vlon.
  destruct (Obj.get md (ToString floatId)) as [m| |] eqn:G; simpl;
    [| exact Hmd |].
  - apply get_Own in G. apply sound_metadata_set; [exact Hmd|].
    destruct Hmd as [Hnd Hall].
    apply (own_In _ _ _ Hnd) in G.
    destruct (Hall _ _ G) as (H1 & H2 & H3 & H4 & H5 & H6 & H7).
    unfold sound_entry. simpl.
    split; [exact H1|]. split; [exact H2|]. split; [exact H3|].
    split; [exact H4|]. split; [now destruct (Processor.positions m)|].
    split; [now rewrite !map_app, H6|].
    apply Forall_app. split; [exact H7|]. constructor; [|constructor].
    simpl. tauto.
  - apply get_Missing in G. destruct G as [_ Ginh].
    apply sound_metadata_set; [exact Hmd|].
    unfold sound_entry. simpl.
    split; [exact Ginh|]. do 3 (split; [reflexivity|]).
    split; [discriminate|]. split; [reflexivity|].
    constructor; [|constructor]. simpl. tauto.
Qed.

Lemma extractFloatMetadata_keeps (files : list Processor.file) :
  sound_metadata (Processor.extractFloatMetadata files).
Proof.
  unfold Processor.extractFloatMetadata.
  assert (H0 : sound_metadata []) by (split; [constructor | intros ? ? []]).
  revert H0. generalize (@nil (string * Processor.FloatMeta)) as md.
  induction files as [|f files IH]; intros md Hmd; simpl; [exact Hmd|].
  apply IH. destruct (groupByProfile (snd f)) as [groups|]; [|exact Hmd].
  revert md Hmd. induction (Obj.entries groups) as [|e es IHe];
    intros md Hmd; simpl; [exact Hmd|].
  pose proof (note_position_sound (extractDateFromFilename (fst f)) md e Hmd)
    as He.
  destruct (Processor.note_position (extractDateFromFilename (fst f)) md e)
    as [md'|md']; simpl in He; [now apply IHe | exact He].
Qed.

(** X22. Every entry of the float metadata is filed under a key that is
    no inherited name and is its float identifier, holds at least one
    position, as many positions as profiles with the same dates and
    coordinates, and only positions whose latitude and longitude are
    finite numbers between -90 and 90. *)
Theorem extractFloatMetadata_entries (files : list Processor.file)
  (key : string) (m : Processor.FloatMeta) :
  Obj.own (Processor.extractFloatMetadata files) key = Some m ->
  Obj.inherited key = false /\
  Processor.m_float_id m = key /\
  Processor.m_wmo_number m = key /\
  Processor.m_status m = "active"%string /\
  Processor.positions m <> [] /\
  map (fun q => (Processor.pos_date q, Processor.pos_latitude q,
                 Processor.pos_longitude q)) (Processor.positions m) =
  map (fun q => (Processor.mp_date q, Processor.mp_latitude q,
                 Processor.mp_longitude q)) (Processor.profiles m) /\
  Forall (fun q => within (-90) 90 (Processor.pos_latitude q) /\
                   within (-90) 90 (Processor.pos_longitude q))
         (Processor.positions m).
Proof.
  intro Hown. destruct (extractFloatMetadata_keeps files) as [Hnd Hall].
  apply (Hall key m). now apply (own_In _ _ _ Hnd).
Qed.

End MetadataFacts.

Section UpsertPosition.
Local Open Scope list_scope.

Lemma upsertFloat_position (db : Processor.DB) (floatId : string)
  (lat lon : value) :
  (exists f, In f (Processor.argo_floats
                     (Processor.upsertFloat db floatId lat lon)) /\
             Processor.float_id f = floatId) /\
  (forall f, In f (Processor.argo_floats
                     (Processor.upsertFloat db floatId lat lon)) ->
             Processor.float_id f = floatId ->
             Processor.last_position_lat f = lat /\
             Processor.last_position_lon f = lon).
Proof.
  unfold Processor.upsertFloat. simpl.
  destruct (existsb _ (Processor.argo_floats db)) eqn:E.
  - split.
    + apply existsb_exists in E. destruct E as (f & Hin & Heq).
      apply String.eqb_eq in Heq. eexists. split.
      * apply in_map_iff. exists f. split; [reflexivity | exact Hin].
      * apply String.eqb_eq in Heq. rewrite Heq. simpl.
        now apply String.eqb_eq.
    + intros f Hin Hid. apply in_map_iff in Hin.
      destruct Hin as (g & <- & _).
      destruct (String.eqb (Processor.float_id g) floatId) eqn:Eg.
      * simpl. tauto.
      * apply String.eqb_neq in Eg. contradiction.
  - split.
    + eexists. split; [apply in_or_app; right; left; reflexivity|].
      reflexivity.
    + intros f Hin Hid. apply in_app_or in Hin.
      destruct Hin as [Hin | [<- | []]]; [|simpl; tauto].
      pose proof (existsb_false _ _ E f Hin) as Hn. simpl in Hn.
      apply String.eqb_neq in Hn. contradiction.
Qed.

End UpsertPosition.

(** ** No sentinel among the measurements *)

Section SentinelFacts.
Context {B : Builtins}.
Local Open Scope list_scope.

Lemma isValidValue_usable (v : value) :
  isValidValue v = true -> usable_number (Number v).
Proof. intro H. now apply isValidValue_iff in H. Qed.

Lemma build_measurements_usable (rows : list row) :
  Forall (fun m => usable_number (Backend.pressure m) /\
                   usable_number (Backend.temperature m) /\
                   usable_or_null (Backend.salinity m) /\
                   Backend.quality_flag m = "1"%string)
         (Backend.build_measurements rows).
Proof.
  apply Forall_forall. intros m Hin. unfold Backend.build_measurements in Hin.
  apply in_map_iff in Hin. destruct Hin as (r & <- & Hr).
  apply filter_In in Hr. destruct Hr as [_ Hv].
  apply andb_true_iff in Hv. destruct Hv as [Hp Ht]. simpl.
  split; [now apply isValidValue_usable|].
  split; [now apply isValidValue_usable|]. split; [|reflexivity].
  destruct (isValidValue (prop r "PSAL")) eqn:E; simpl;
    [now apply isValidValue_usable | exact I].
Qed.

Lemma valid_measurements_usable (pid : nat) (rows : list row) :
  Forall (fun m => usable_number (Processor.pressure m) /\
                   usable_number (Processor.temperature m) /\
                   usable_or_null (Processor.salinity m) /\
                   Processor.quality_flag m = "1"%string)
         (Processor.valid_measurements pid [] rows).
Proof.
  induction rows as [|r rows IH]; simpl; [constructor|].
  destruct (isValidValue (prop r "PRES") && isValidValue (prop r "TEMP"))
    eqn:Hv; [|exact IH].
  apply andb_true_iff in Hv. destruct Hv as [Hp Ht].
  rewrite valid_measurements_acc. apply Forall_app. split; [|exact IH].
  constructor; [|constructor]. simpl.
  split; [now apply isValidValue_usable|].
  split; [now apply isValidValue_usable|]. split; [|reflexivity].
  destruct (isValidValue (prop r "PSAL")) eqn:E; simpl;
    [now apply isValidValue_usable | exact I].
Qed.

(** X8. No sentinel reaches a client of the in-memory variant: every
    measurement held after [loadCSVData] has a pressure and a
    temperature that are numbers above -999 other than 99999, a
    salinity that is such a number or [null], and the quality flag
    ['1']. *)
Theorem loadCSVData_measurements_usable (dir : list Backend.file) :
  forall key items p m,
    In (key, items) (Backend.MEASUREMENTS_DATA (Backend.loadCSVData dir)) ->
    In p items -> In m (Backend.measurements p) ->
    usable_number (Backend.pressure m) /\
    usable_number (Backend.temperature m) /\
    usable_or_null (Backend.salinity m) /\
    Backend.quality_flag m = "1"%string.
Proof.
  apply (loadCSVData_keeps
           (fun st => forall key items p m,
                In (key, items) (Backend.MEASUREMENTS_DATA st) ->
                In p items -> In m (Backend.measurements p) ->
                usable_number (Backend.pressure m) /\
                usable_number (Backend.temperature m) /\
                usable_or_null (Backend.salinity m) /\
                Backend.quality_flag m = "1"%string)).
  - intros key items p m [].
  - intros date st [profileId rows] Hst.
    destruct (loadProfile_effect date st profileId rows)
      as [-> | (floatId & lat & lon & _ & _ & _ & _ & Hmd)]; [exact Hst|].
    rewrite Hmd. clear Hmd.
    assert (Hitem : forall m,
               In m (Backend.measurements
                       (stored_item (ToString floatId) profileId date rows)) ->
               usable_number (Backend.pressure m) /\
               usable_number (Backend.temperature m) /\
               usable_or_null (Backend.salinity m) /\
               Backend.quality_flag m = "1"%string).
    { intros m Hm. simpl in Hm.
      exact (proj1 (Forall_forall _ _) (build_measurements_usable rows) m Hm). }
    destruct (Obj.get (Backend.MEASUREMENTS_DATA st) (ToString floatId))
      as [old| |] eqn:G; [| exact Hst |].
    + apply get_Own in G. intros key items p m Hin Hp Hm.
      apply set_In in Hin. destruct Hin as [[-> ->] | Hin].
      * apply in_app_or in Hp. destruct Hp as [Hp | [<- | []]].
        -- apply (Hst (ToString floatId) old p m); try assumption.
           clear - G. induction (Backend.MEASUREMENTS_DATA st)
             as [|[k0 a0] o IH]; simpl in *; [discriminate|].
           destruct (String.eqb k0 (ToString floatId)) eqn:E.
           ++ apply String.eqb_eq in E. injection G as ->. subst. now left.
           ++ right. now apply IH.
        -- now apply Hitem.
      * now apply (Hst key items p m).
    + intros key items p m Hin Hp Hm.
      apply set_In in Hin. destruct Hin as [[-> ->] | Hin].
      * destruct Hp as [<- | []]. now apply Hitem.
      * now apply (Hst key items p m).
Qed.

(** X26. No sentinel reaches the measurement table either: every row
    [processAllFiles] appends to it has such a pressure, temperature
    and salinity, and the quality flag ['1']. *)
Theorem processAllFiles_measurements_usable (db : Processor.DB)
  (dir : list Processor.file) :
  exists added,
    Processor.argo_measurements (Processor.processAllFiles db dir) =
    Processor.argo_measurements db ++ added /\
    Forall (fun m => usable_number (Processor.pressure m) /\
                     usable_number (Processor.temperature m) /\
                     usable_or_null (Processor.salinity m) /\
                     Processor.quality_flag m = "1"%string) added.
Proof.
  apply (processAllFiles_keeps
           (fun d => exists added,
                Processor.argo_measurements d =
                Processor.argo_measurements db ++ added /\
                Forall (fun m => usable_number (Processor.pressure m) /\
                                 usable_number (Processor.temperature m) /\
                                 usable_or_null (Processor.salinity m) /\
                                 Processor.quality_flag m = "1"%string)
                       added)
           (fun _ => True) dir).
  - intros; exact I.
  - intros md d profileId rows _ (added & Hadd & Hall).
    destruct (processProfileData_effect md d profileId rows)
      as [-> | (floatId & lat & lon & cycle & _ & ->)]; [now exists added|].
    destruct (stored_group_tables d floatId lat lon cycle
                (extractDateFromFilename (Processor.basename profileId)) rows)
      as (_ & _ & ->).
    eexists. split; [rewrite Hadd, <- app_assoc; reflexivity|].
    apply Forall_app. split; [exact Hall|]. apply valid_measurements_usable.
  - exists []. split; [now rewrite app_nil_r | constructor].
Qed.

(** X20. A group whose own coordinates are usable is stored at them
    without regard to the metadata: its float row then holds that
    position and one profile row is appended with it. *)
Theorem usable_group_is_stored (md : Processor.Metadata) (db : Processor.DB)
  (profileId : string) (sample : row) (rest : list row) :
  let lat := prop sample "LATITUDE" ||' prop sample "latitude" ||' VNull in
  let lon := prop sample "LONGITUDE" ||' prop sample "longitude" ||' VNull in
  let floatId :=
    ToString (prop sample "PLATFORM_NUMBER" ||' prop sample "platform_number"
              ||' prop sample "FLOAT_ID" ||' prop sample "float_id"
              ||' VStr profileId) in
  let db' := Processor.processProfileData md db (profileId, sample :: rest) in
  Processor.unusable lat lon = false ->
  (exists f, In f (Processor.argo_floats db') /\
             Processor.float_id f = floatId) /\
  (forall f, In f (Processor.argo_floats db') ->
             Processor.float_id f = floatId ->
             Processor.last_position_lat f = lat /\
             Processor.last_position_lon f = lon) /\
  exists p,
    Processor.argo_profiles db' = Processor.argo_profiles db ++ [p] /\
    Processor.p_float_id p = floatId /\
    Processor.latitude p = lat /\ Processor.longitude p = lon /\
    Processor.id p = S (List.length (Processor.argo_profiles db)).
Proof.
  intros lat lon floatId db' U.
  assert (Hdb : db' = stored_group db floatId lat lon
                        (prop sample "CYCLE_NUMBER" ||'
                         prop sample "cycle_number" ||' VNum (Fin 0))
                        (extractDateFromFilename
                           (Processor.basename profileId))
                        (sample :: rest)).
  { unfold db', Processor.processProfileData. fold lat lon.
    unfold Processor.resolve_position. rewrite U, U. reflexivity. }
  rewrite Hdb.
  destruct (stored_group_tables db floatId lat lon
              (prop sample "CYCLE_NUMBER" ||' prop sample "cycle_number"
               ||' VNum (Fin 0))
              (extractDateFromFilename (Processor.basename profileId))
              (sample :: rest)) as (-> & -> & _).
  destruct (upsertFloat_position db floatId lat lon) as [H1 H2].
  split; [exact H1|]. split; [exact H2|].
  eexists. split; [reflexivity|]. repeat split.
Qed.

End SentinelFacts.

(** * The scenarios, run on [PlainHost] *)

Section Runs.
Local Existing Instance Host.PlainHost.
Local Open Scope list_scope.

(** Scenario E on the store of scenario D, with the corners given as
    text. *)
Lemma list_floats_bbox_swapped :
  Backend.api_floats (Backend.loadCSVData Scenario.two_days)
                     (bbox_query "12,50,25,78") =
  Backend.api_floats (Backend.loadCSVData Scenario.two_days)
                     (bbox_query "25,78,12,50").
Proof.
  apply (list_floats_bbox_exact
           (Backend.loadCSVData Scenario.two_days)
           "25,78,12,50" "25" "78" "12" "50" 25 78 12 50);
    solve [reflexivity | discriminate | left; reflexivity].
Defined.

(** The validity predicate on a temperature and on a word. *)
Lemma isValidValue_on_samples :
  isValidValue (VNum (Fin 27.1)) = true /\ isValidValue (VStr "abc") = false.
Proof.
  destruct (isValidValue_contract (B := Host.PlainHost))
    as (_ & _ & _ & _ & Hnan & _ & _ & Hok & _).
  split.
  - apply Hok; [intro H; discriminate H | reflexivity].
  - apply Hnan. reflexivity.
Defined.


(** C4, as the specification states it, refuted.  With no date column
    the decoder returns 2020-11-01 although the file is named for
    2020-11-15; and the Julian-day offset 25854 of scenario C decodes
    to 25854 milliseconds after 1970-01-01, which is neither 25854 days
    after 1950-01-01 (a day that is 2020-10-14) nor 2020-11-01. *)
Lemma extractDate_ignores_file_and_epoch :
  Processor.extractDate [] = Some (days_from_civil 2020 11 1 * msPerDay) /\
  extractDateFromFilename "20201115_prof.csv" =
  Some (days_from_civil 2020 11 15 * msPerDay) /\
  Processor.extractDate [] <> extractDateFromFilename "20201115_prof.csv" /\
  Processor.extractDate Scenario.juld_row = Some 25854 /\
  Processor.extractDate Scenario.juld_row <>
  Some (Processor.argoEpoch_time + 25854 * msPerDay) /\
  Processor.argoEpoch_time + 25854 * msPerDay =
  days_from_civil 2020 10 14 * msPerDay /\
  Processor.extractDate Scenario.juld_row <>
  Some (days_from_civil 2020 11 1 * msPerDay).
Proof.
  repeat split; try reflexivity; vm_compute; discriminate.
Qed.

(** A date column that holds a word decodes to the default date. *)
Lemma extractDate_of_a_word :
  date_source [("DATE", VStr "soon")] = VStr "soon" /\
  Date_parse "soon" = None /\
  Processor.extractDate [("DATE", VStr "soon")] =
  Some (days_from_civil 2020 11 1 * msPerDay).
Proof.
  split; [reflexivity|]. split; [reflexivity|].
  apply (proj1 (proj2 (proj2 (extractDate_total_with_default
                                (B := Host.PlainHost)
                                [("DATE", VStr "soon")]))) "soon");
    reflexivity.
Defined.


(** The outcome of that run: the profile is stored at (10.5, 71.0). *)
Lemma equator_profile_stored_position :
  map (fun p => (Processor.latitude p, Processor.longitude p))
      (Processor.argo_profiles
         (Processor.processAllFiles Processor.empty_db
            (Scenario.two_days ++
             [("20201103_prof.csv", [Scenario.equator_row])]))) =
  [ (VNum (Fin 10.0), VNum (Fin 70.0)); (VNum (Fin 10.5), VNum (Fin 70.3));
    (VNum (Fin 10.5), VNum (Fin 71.0)) ].
Proof. vm_compute. reflexivity. Qed.

(** A file with one row filed under [constructor] contributes nothing. *)
Lemma file_with_inherited_key_dropped :
  Backend.loadFile Backend.empty_store
    ("20201101_prof.csv", [Scenario.day1_row; Inputs.inherited_key_row]) =
  Backend.empty_store /\
  Processor.processCsvFile [] Processor.empty_db
    ("20201101_prof.csv", [Scenario.day1_row; Inputs.inherited_key_row]) =
  Processor.empty_db /\
  Processor.extractFloatMetadata
    ([] ++ [("20201101_prof.csv",
             [Scenario.day1_row; Inputs.inherited_key_row])]) =
  Processor.extractFloatMetadata [].
Proof.
  apply (inherited_profile_key_drops_file (B := Host.PlainHost)).
  exists Inputs.inherited_key_row. split; [right; left|]; reflexivity.
Defined.

(** The file of 15 November 2020. *)
Lemma date_of_20201115 :
  extractDateFromFilename ("2020" ++ "11" ++ "15" ++ "_prof.csv")%string =
  Some (days_from_civil (Z.of_N (Str.digits_val "2020"))
                        (Z.of_N (Str.digits_val "11"))
                        (Z.of_N (Str.digits_val "15")) * msPerDay).
Proof.
  apply (extractDateFromFilename_dated (B := Host.PlainHost));
    try reflexivity; split; discriminate.
Defined.

(** No float of scenario D is inactive. *)
Lemma no_inactive_float :
  Backend.api_floats (Backend.loadCSVData Scenario.two_days)
    {| Backend.q_bbox := None; Backend.q_date_range := None;
       Backend.q_status := Some "inactive"%string |} =
  if String.eqb "inactive" "active"
  then Backend.api_floats (Backend.loadCSVData Scenario.two_days)
         (without_status
            {| Backend.q_bbox := None; Backend.q_date_range := None;
               Backend.q_status := Some "inactive"%string |})
  else [].
Proof.
  apply (status_filter_on_loaded_floats (B := Host.PlainHost));
    [reflexivity | discriminate].
Defined.

(** A box of three parts is ignored; a box with a word in it matches
    nothing. *)
Lemma malformed_boxes :
  Backend.api_floats (Backend.loadCSVData Scenario.two_days)
                     (bbox_query "0,60,20") =
  Backend.FLOAT_DATA (Backend.loadCSVData Scenario.two_days) /\
  Backend.api_floats (Backend.loadCSVData Scenario.two_days)
                     (bbox_query "0,60,north,80") = [].
Proof.
  split.
  - apply (proj1 (bbox_malformed (B := Host.PlainHost) _ "0,60,20"
                    ltac:(discriminate))).
    discriminate.
  - apply (proj2 (bbox_malformed (B := Host.PlainHost) _ "0,60,north,80"
                    ltac:(discriminate))).
    + reflexivity.
    + do 2 right. left. reflexivity.
Defined.

(** The two endpoints on the box of scenario E. *)
Lemma spatial_on_scenario_box :
  Backend.api_spatial (Backend.loadCSVData Scenario.two_days)
    (Some [VNum (StringToNumber "0"); VNum (StringToNumber "60");
           VNum (StringToNumber "20"); VNum (StringToNumber "80")]) None =
  (List.length (Backend.api_floats (Backend.loadCSVData Scenario.two_days)
                                   (bbox_query "0,60,20,80")),
   map Backend.float_id
       (Backend.api_floats (Backend.loadCSVData Scenario.two_days)
                           (bbox_query "0,60,20,80"))).
Proof.
  apply (spatial_agrees_with_listing (B := Host.PlainHost));
    [discriminate | reflexivity].
Defined.

(** The float of scenario D lies in November 2020. *)
Lemma float_in_november :
  In Inputs.float_2901001
     (Backend.api_floats (Backend.loadCSVData Scenario.two_days)
        {| Backend.q_bbox := None;
           Backend.q_date_range := Some "2020-11-01,2020-11-30"%string;
           Backend.q_status := None |}).
Proof.
  apply (date_range_filter (B := Host.PlainHost) _
           "2020-11-01,2020-11-30" "2020-11-01" "2020-11-30");
    [discriminate | reflexivity |].
  split; [left; reflexivity|].
  exists 1604188800000, 1604188800000, 1606694400000.
  repeat split; try reflexivity; discriminate.
Defined.

(** The trajectory of scenario D stays at one position. *)
Lemma trajectory_of_scenario_D_one_position :
  exists la lo,
    Forall (fun p => Backend.pt_latitude p = la /\
                     Backend.pt_longitude p = lo)
           [ {| Backend.pt_timestamp := Some 1604188800000;
                Backend.pt_latitude := Fin 10.0;
                Backend.pt_longitude := Fin 70.0 |};
             {| Backend.pt_timestamp := Some 1604275200000;
                Backend.pt_latitude := Fin 10.0;
                Backend.pt_longitude := Fin 70.0 |} ].
Proof.
  apply (proj1 (trajectory_is_one_position (B := Host.PlainHost)
                  (Backend.loadCSVData Scenario.two_days) "2901001" _
                  eq_refl)).
Defined.

(** With the platform number read as a number, the trajectory of the
    float is at (0, 0). *)
Lemma trajectory_of_numeric_platform :
  Forall (fun p => Backend.pt_latitude p = Fin 0 /\
                   Backend.pt_longitude p = Fin 0)
         [ {| Backend.pt_timestamp := Some 1604188800000;
              Backend.pt_latitude := Fin 0;
              Backend.pt_longitude := Fin 0 |} ].
Proof.
  apply (trajectory_of_unmatched_identifier
           (Backend.loadCSVData
              [("20201101_prof.csv", [Inputs.numeric_platform_row])])
           "2901001").
  - reflexivity.
  - intros f [<- | []]. discriminate.
Defined.

(** The record of the float of scenario D. *)
Lemma record_of_scenario_D :
  within (-180) 180 (Backend.last_position_lat Inputs.float_2901001) /\
  within (-180) 180 (Backend.last_position_lon Inputs.float_2901001) /\
  Backend.status Inputs.float_2901001 = "active"%string /\
  Backend.platform_type Inputs.float_2901001 = "ARGO_FLOAT"%string /\
  Backend.wmo_number Inputs.float_2901001 =
  Backend.float_id Inputs.float_2901001 /\
  truthy (Backend.float_id Inputs.float_2901001) = true.
Proof.
  apply (loadCSVData_float_records (B := Host.PlainHost) Scenario.two_days).
  left. reflexivity.
Defined.

(** The tables of scenario D are consistent. *)
Lemma tables_of_scenario_D_consistent :
  consistent (Processor.processAllFiles Processor.empty_db Scenario.two_days).
Proof.
  apply (processAllFiles_consistent (B := Host.PlainHost)).
  split; [constructor|]. split; [intros p []|].
  split; [reflexivity | intros m []].
Defined.

(** Both profiles of scenario D are dated 2020-11-01. *)
Lemma profile_dates_of_scenario_D :
  exists added,
    Processor.argo_profiles
      (Processor.processAllFiles Processor.empty_db Scenario.two_days) =
    Processor.argo_profiles Processor.empty_db ++ added /\
    Forall (fun p => Processor.profile_date p =
                     Some (days_from_civil 2020 11 1 * msPerDay)) added.
Proof.
  apply (processAllFiles_profile_dates (B := Host.PlainHost)).
  intros f r [<- | [<- | []]] [<- | []]; vm_compute; lia.
Defined.

(** The group of scenario B is skipped by the database variant. *)
Lemma polar_group_skipped :
  Processor.processProfileData [] Processor.empty_db
    ("0"%string, [Scenario.polar_row]) = Processor.empty_db.
Proof.
  apply (polar_group_skipped_by_processor (B := Host.PlainHost)
           [] Processor.empty_db "0" Scenario.polar_row [] 95.0);
    reflexivity.
Defined.

(** The offset of scenario C is read as milliseconds. *)
Lemma juld_25854_is_milliseconds :
  Processor.extractDate Scenario.juld_row = Some (Qtrunc 25854).
Proof.
  apply (extractDate_number_is_milliseconds (B := Host.PlainHost));
    [reflexivity | discriminate | discriminate | discriminate].
Defined.

(** A number beyond the range of time values decodes to the default. *)
Lemma huge_juld_is_default :
  Processor.extractDate Inputs.huge_juld_row = default_date.
Proof.
  apply (julian_branch_never_decodes (B := Host.PlainHost)
           Inputs.huge_juld_row (Fin 10000000000000000));
    reflexivity.
Defined.

(** The metadata of the float of scenario D. *)
Lemma metadata_of_scenario_D :
  exists m,
    Obj.own (Processor.extractFloatMetadata Scenario.two_days) "2901001" =
    Some m /\
    Obj.inherited "2901001" = false /\
    Processor.m_float_id m = "2901001"%string /\
    Processor.m_wmo_number m = "2901001"%string /\
    Processor.m_status m = "active"%string /\
    Processor.positions m <> [] /\
    map (fun q => (Processor.pos_date q, Processor.pos_latitude q,
                   Processor.pos_longitude q)) (Processor.positions m) =
    map (fun q => (Processor.mp_date q, Processor.mp_latitude q,
                   Processor.mp_longitude q)) (Processor.profiles m) /\
    Forall (fun q => within (-90) 90 (Processor.pos_latitude q) /\
                     within (-90) 90 (Processor.pos_longitude q))
           (Processor.positions m).
Proof.
  eexists. split; [reflexivity|].
  apply (extractFloatMetadata_entries (B := Host.PlainHost)
           Scenario.two_days "2901001").
  reflexivity.
Defined.

(** The measurement of the first day of scenario D holds no sentinel. *)
Lemma first_measurement_usable :
  let m := {| Backend.pressure := Fin 5.0;
              Backend.temperature := Fin 28.1;
              Backend.salinity := None;
              Backend.depth := Fin 5.0985800;
              Backend.quality_flag := "1" |} in
  usable_number (Backend.pressure m) /\
  usable_number (Backend.temperature m) /\
  usable_or_null (Backend.salinity m) /\
  Backend.quality_flag m = "1"%string.
Proof.
  intro m.
  eapply (loadCSVData_measurements_usable (B := Host.PlainHost)
            Scenario.two_days).
  - left. reflexivity.
  - left. reflexivity.
  - left. reflexivity.
Defined.

(** The first group of scenario D is stored at its own position. *)
Lemma first_group_of_scenario_D_stored :
  exists f,
    In f (Processor.argo_floats
            (Processor.processProfileData [] Processor.empty_db
               ("0"%string, [Scenario.day1_row]))) /\
    Processor.float_id f = "2901001"%string.
Proof.
  apply (proj1 (usable_group_is_stored (B := Host.PlainHost)
                  [] Processor.empty_db "0" Scenario.day1_row []
                  eq_refl)).
Defined.

(** A float that was never seen has no profile and no trajectory. *)
Lemma listings_of_unseen_float :
  Backend.api_profiles (Backend.loadCSVData Scenario.two_days) "2909999" =
  Backend.Json [] /\
  Backend.api_trajectory (Backend.loadCSVData Scenario.two_days) "2909999" =
  Backend.Json [].
Proof.
  apply (unknown_plain_identifier (B := Host.PlainHost)); reflexivity.
Defined.

End Runs.
